(** * brian2.sphinxext.generate_reference: a shallow embedding

    The reference-documentation generator of Brian 2 walks a package
    tree, decides which directories are packages, loads every module
    and writes one reST page per package and one stub per documented
    member.  This development embeds the functions of
    [brian2/sphinxext/generate_reference.py] and proves the properties
    its specification states about them.

    Python strings are [string]s, lists are [list]s.  The interpreter's
    import machinery and the file system are explicit arguments; the
    files written, directories created and lines printed are collected
    in a [world] that is threaded through every effectful function,
    together with the exception that may end a call. *)

From Stdlib Require Import String Ascii List Bool Arith Lia.
From Stdlib Require Import NArith Sorted Permutation.
Import ListNotations.
Local Open Scope list_scope.
Local Open Scope string_scope.

(** ** Python strings *)

Module Str.

Definition nl : string := String (ascii_of_nat 10) EmptyString.

(** [s.startswith(p)] *)
Definition startswith (s p : string) : bool := String.prefix p s.

Fixpoint rev_acc (s acc : string) : string :=
  match s with
  | EmptyString => acc
  | String c s' => rev_acc s' (String c acc)
  end.

Definition rev (s : string) : string := rev_acc s EmptyString.

(** [s.endswith(p)] *)
Definition endswith (s p : string) : bool := String.prefix (rev p) (rev s).

(** [s.split(c)] for a one-character separator: never the empty list. *)
Fixpoint split (c : ascii) (s : string) : list string :=
  match s with
  | EmptyString => [EmptyString]
  | String a s' =>
      if Ascii.eqb a c then EmptyString :: split c s'
      else match split c s' with
           | [] => [String a EmptyString]
           | h :: t => String a h :: t
           end
  end.

(** [sep.join(l)] *)
Definition join (sep : string) (l : list string) : string := String.concat sep l.

(** [s.lstrip(c)] for a one-character set *)
Fixpoint lstrip (c : ascii) (s : string) : string :=
  match s with
  | String a s' => if Ascii.eqb a c then lstrip c s' else s
  | EmptyString => EmptyString
  end.

(** [s.replace(c, d)] for one-character strings *)
Fixpoint replace (c d : ascii) (s : string) : string :=
  match s with
  | EmptyString => EmptyString
  | String a s' => String (if Ascii.eqb a c then d else a) (replace c d s')
  end.

(** [s[n:]] *)
Fixpoint drop (n : nat) (s : string) : string :=
  match n, s with
  | O, _ => s
  | S n', String _ s' => drop n' s'
  | S _, EmptyString => EmptyString
  end.

(** [c * n] *)
Fixpoint repeat (c : ascii) (n : nat) : string :=
  match n with
  | O => EmptyString
  | S n' => String c (repeat c n')
  end.

(** [x in l] for a list of strings *)
Definition mem (x : string) (l : list string) : bool :=
  existsb (String.eqb x) l.

(** [sorted(l)]: insertion sort by code-point order. *)
Fixpoint insert (x : string) (l : list string) : list string :=
  match l with
  | [] => [x]
  | y :: l' => if String.leb x y then x :: l else y :: insert x l'
  end.

Fixpoint sorted (l : list string) : list string :=
  match l with
  | [] => []
  | x :: l' => insert x (sorted l')
  end.

(** [l.remove(x)]: drops the first occurrence. *)
Fixpoint remove_first (x : string) (l : list string) : list string :=
  match l with
  | [] => []
  | y :: l' => if String.eqb y x then l' else y :: remove_first x l'
  end.

End Str.

(** ** Exceptions and results *)

Inductive exn : Type :=
| ImportError (msg : string)
| AssertionError (msg : string)
| AttributeError (msg : string)
| IndexError (msg : string)
| FileNotFoundError (path : string)
| NotADirectoryError (path : string)
| OtherException (msg : string).

(** [except ImportError] *)
Definition is_ImportError (e : exn) : bool :=
  match e with
  | ImportError _ => true
  | _ => false
  end.

Inductive result (A : Type) : Type :=
| Ok (a : A)
| Raise (e : exn).

Arguments Ok {A} a.
Arguments Raise {A} e.

(** ** Python objects and modules as the generator sees them *)

Inductive pykind : Type := PyClass | PyFunction | PyOther.

(** An object is observed through [getattr(obj, "__module__", None)],
    [inspect.isclass], [inspect.isfunction]; [obj_id] tells objects apart. *)
Record pyobj : Type := mk_pyobj {
  obj_module : option string;
  obj_kind : pykind;
  obj_id : string
}.

(** A module is observed through [dir(mod)] and [getattr(mod, name)]. *)
Record pymodule : Type := mk_pymodule {
  mod_attrs : list (string * pyobj)
}.

Fixpoint assoc {A : Type} (k : string) (l : list (string * A)) : option A :=
  match l with
  | [] => None
  | (k', v) :: l' => if String.eqb k' k then Some v else assoc k l'
  end.

(** [getattr(mod, name, None)] *)
Definition getattr (m : pymodule) (name : string) : option pyobj :=
  assoc name (mod_attrs m).

(** [dir(mod)] *)
Definition dir (m : pymodule) : list string :=
  Str.sorted (map fst (mod_attrs m)).

Definition option_string_eqb (a b : option string) : bool :=
  match a, b with
  | Some x, Some y => String.eqb x y
  | None, None => true
  | _, _ => false
  end.

(** The import machinery: [py_import name fromlist] is the module bound
    to the dotted [name] after [__import__(name, ..., fromlist, 0)], or
    the exception the import raises. *)
Record pyenv : Type := mk_pyenv {
  py_import : string -> list string -> result pymodule
}.

(** ** os.path (POSIX flavour) *)

Module posixpath.

Definition sep : string := "/".
Definition sep_char : ascii := "/"%char.

Definition isabs (s : string) : bool := Str.startswith s sep.

(** [join(a, b)]; [join(a, b, c)] is [join (join a b) c]. *)
Definition join (a b : string) : string :=
  if Str.startswith b sep then b
  else if String.eqb a "" || Str.endswith a sep then a ++ b
  else a ++ sep ++ b.

(** The component loop of [normpath]; [new_comps] is kept reversed. *)
Fixpoint norm_comps (initial_slashes : nat) (comps new_comps : list string)
  : list string :=
  match comps with
  | [] => List.rev new_comps
  | comp :: rest =>
      if String.eqb comp "" || String.eqb comp "." then
        norm_comps initial_slashes rest new_comps
      else if negb (String.eqb comp "..")
              || (Nat.eqb initial_slashes 0
                  && match new_comps with [] => true | _ => false end)
              || match new_comps with
                 | last :: _ => String.eqb last ".."
                 | [] => false
                 end
      then norm_comps initial_slashes rest (comp :: new_comps)
      else match new_comps with
           | _ :: popped => norm_comps initial_slashes rest popped
           | [] => norm_comps initial_slashes rest new_comps
           end
  end.

Definition normpath (path : string) : string :=
  if String.eqb path "" then "."
  else
    let initial_slashes :=
      if Str.startswith path sep then
        if Str.startswith path "//" && negb (Str.startswith path "///")
        then 2 else 1
      else 0 in
    let comps := norm_comps initial_slashes (Str.split sep_char path) [] in
    let path' := Str.repeat sep_char initial_slashes ++ Str.join sep comps in
    if String.eqb path' "" then "." else path'.

(** [abspath(path)] in the working directory [cwd] *)
Definition abspath (cwd path : string) : string :=
  normpath (if isabs path then path else join cwd path).

(** [split(p)[-1]]: what follows the last separator. *)
Definition split_tail (p : string) : string :=
  List.last (Str.split sep_char p) "".

(** One more than [s.rfind(c)]: [0] when [c] does not occur. *)
Fixpoint rfind_from (c : ascii) (s : string) (pos found : nat) : nat :=
  match s with
  | EmptyString => found
  | String a s' =>
      rfind_from c s' (S pos) (if Ascii.eqb a c then S pos else found)
  end.

Definition rfind1 (c : ascii) (s : string) : nat := rfind_from c s 0 0.

Fixpoint all_dots (s : string) : bool :=
  match s with
  | EmptyString => true
  | String a s' => Ascii.eqb a "."%char && all_dots s'
  end.

(** [splitext(p)]: the extension starts at the last dot of the last
    component, leading dots of that component not counted. *)
Definition splitext (p : string) : string * string :=
  let filenameIndex := rfind1 sep_char p in
  let dot1 := rfind1 "."%char p in
  if Nat.ltb filenameIndex dot1
     && negb (all_dots (String.substring filenameIndex
                                        (dot1 - 1 - filenameIndex) p))
  then (String.substring 0 (dot1 - 1) p, Str.drop (dot1 - 1) p)
  else (p, "").

End posixpath.

(** ** The file system that is read *)

#[warnings="-register-all"]
Inductive node : Type :=
| File (size : nat)
| Dir (entries : list (string * node)).

Record filesystem : Type := mk_filesystem {
  fs_root : node;
  fs_cwd : string
}.

Module os.

Fixpoint descend (n : node) (comps : list string) : option node :=
  match comps with
  | [] => Some n
  | c :: cs =>
      match n with
      | Dir es =>
          match assoc c es with
          | Some child => descend child cs
          | None => None
          end
      | File _ => None
      end
  end.

Definition components (path : string) : list string :=
  filter (fun c => negb (String.eqb c ""))
         (Str.split posixpath.sep_char path).

(** The entry a path names, relative paths being taken from the
    working directory. *)
Definition lookup (fs : filesystem) (path : string) : option node :=
  descend (fs_root fs) (components (posixpath.abspath (fs_cwd fs) path)).

(** [os.path.exists] *)
Definition path_exists (fs : filesystem) (path : string) : bool :=
  match lookup fs path with Some _ => true | None => false end.

(** [os.path.isfile] *)
Definition isfile (fs : filesystem) (path : string) : bool :=
  match lookup fs path with Some (File _) => true | _ => false end.

(** [os.path.getsize]; the size of a directory entry is not tracked,
    the generator asks for the size of listed files only. *)
Definition getsize (fs : filesystem) (path : string) : result nat :=
  match lookup fs path with
  | Some (File n) => Ok n
  | Some (Dir _) => Raise (OtherException "getsize of a directory")
  | None => Raise (FileNotFoundError path)
  end.

(** [os.listdir] *)
Definition listdir (fs : filesystem) (path : string) : result (list string) :=
  match lookup fs path with
  | Some (Dir es) => Ok (map fst es)
  | Some (File _) => Raise (NotADirectoryError path)
  | None => Raise (FileNotFoundError path)
  end.

Definition is_dir (e : string * node) : bool :=
  match snd e with Dir _ => true | File _ => false end.

(** The two listings [os.walk] yields for a directory. *)
Definition dir_names (es : list (string * node)) : list string :=
  map fst (filter is_dir es).

Definition file_names (es : list (string * node)) : list string :=
  map fst (filter (fun e => negb (is_dir e)) es).

End os.

(** ** Effects: what a run leaves behind

    The tree that is read does not change during a run: the destination
    lies outside of it, and what is written there is recorded in the
    order of the writes.  Creating the destination and writing a file
    are taken to succeed. *)

Record world : Type := mk_world {
  made_dirs : list string;
  written : list (string * string);
  printed : list string
}.

Definition M (A : Type) : Type := world -> result A * world.

Definition ret {A : Type} (a : A) : M A := fun w => (Ok a, w).

Definition throw {A : Type} (e : exn) : M A := fun w => (Raise e, w).

Definition lift {A : Type} (r : result A) : M A := fun w => (r, w).

Definition bind {A B : Type} (m : M A) (k : A -> M B) : M B :=
  fun w =>
    match m w with
    | (Ok a, w') => k a w'
    | (Raise e, w') => (Raise e, w')
    end.

Notation "x <- m ;; k" := (bind m (fun x => k))
  (at level 61, m at next level, right associativity).

Definition print (line : string) : M unit :=
  fun w => (Ok tt, mk_world (made_dirs w) (written w) (printed w ++ [line])%list).

(** [f = open(fname, "w"); f.write(text); f.close()] *)
Definition write_text (fname text : string) : M unit :=
  fun w => (Ok tt, mk_world (made_dirs w) (written w ++ [(fname, text)])%list (printed w)).

(** [os.makedirs(path)] *)
Definition makedirs (path : string) : M unit :=
  fun w => (Ok tt, mk_world (made_dirs w ++ [path])%list (written w) (printed w)).

(** ** Module constants and the pure helpers *)

Definition INITPY : string := "__init__.py".

Definition OPTIONS : list string := ["show-inheritance"].

Definition truthy (s : string) : bool := negb (String.eqb s "").

(** [makename(package, module)]: [package] may be [None]. *)
Definition makename (package : option string) (module : string) : string :=
  match package with
  | Some p => if truthy p
              then (if truthy module then p ++ "." ++ module else p)
              else module
  | None => module
  end.

Definition write_file (name text destdir suffix : string) : M unit :=
  let fname := posixpath.join destdir (name ++ "." ++ suffix) in
  _ <- print ("Creating file " ++ fname ++ ".") ;;
  write_text fname text.

(** The heading levels [format_heading] supports. *)
Inductive heading_level : Type := H1 | H2 | H3.

Definition underline_char (level : heading_level) : ascii :=
  match level with
  | H1 => "="%char
  | H2 => "-"%char
  | H3 => "~"%char
  end.

Definition format_heading (level : heading_level) (text : string) : string :=
  let underlining := Str.repeat (underline_char level) (String.length text) in
  text ++ Str.nl ++ underlining ++ Str.nl ++ Str.nl.

(** [shall_skip] reads the size through the file system. *)
Definition shall_skip (fs : filesystem) (module : string) : result bool :=
  match os.getsize fs module with
  | Ok n => Ok (Nat.leb n 2)
  | Raise e => Raise e
  end.

(** ** ExclusionMatcher *)

Definition normalize_excludes (rootpath : string) (excludes : list string)
  : list string :=
  map (fun exclude =>
         let exclude :=
           if negb (posixpath.isabs exclude)
              && negb (Str.startswith exclude rootpath)
           then posixpath.join rootpath exclude
           else exclude in
         posixpath.normpath exclude ++ posixpath.sep)
      excludes.

Fixpoint any_startswith (root : string) (excludes : list string) : bool :=
  match excludes with
  | [] => false
  | exclude :: rest =>
      if Str.startswith root exclude then true else any_startswith root rest
  end.

Definition is_excluded (root : string) (excludes : list string) : bool :=
  let root := if Str.endswith root posixpath.sep then root
              else root ++ posixpath.sep in
  any_startswith root excludes.

(** ** The generator proper

    [env] is the interpreter's import machinery, [fs] the file system
    that is read.  [auto_find_examples] is the helper imported from the
    sibling module [examplefinder]; it only supplies text for the stub
    of a class. *)

Section Generator.

Variable env : pyenv.
Variable fs : filesystem.
Variable auto_find_examples : pyobj -> string -> string.

(** *** ImportResolver *)

(** [".".join(parts[:idx])] with [parts = module_name.split(".")] *)
Definition dotted_prefix (module_name : string) (idx : nat) : string :=
  Str.join "." (firstn idx (Str.split "."%char module_name)).

(** The loop of [find_shortest_import] over [range(1, len(parts) + 1)]. *)
Fixpoint scan_prefixes (module_name obj_name : string) (parts : list string)
         (idxs : list nat) : result string :=
  match idxs with
  | [] => Raise (AssertionError
                   ("Couldn't import " ++ module_name ++ "." ++ obj_name))
  | idx :: rest =>
      match py_import env (Str.join "." (firstn idx parts)) [obj_name] with
      | Ok result =>
          match getattr result obj_name with
          | Some result_obj =>
              if option_string_eqb (obj_module result_obj) (Some module_name)
              then Ok (Str.join "." (firstn idx parts))
              else scan_prefixes module_name obj_name parts rest
          | None => scan_prefixes module_name obj_name parts rest
          end
      | Raise e =>
          if is_ImportError e
          then scan_prefixes module_name obj_name parts rest
          else Raise e
      end
  end.

Definition find_shortest_import (module_name obj_name : string)
  : result string :=
  let parts := Str.split "."%char module_name in
  scan_prefixes module_name obj_name parts (seq 1 (List.length parts)).

(** *** DocumentWriter: the stub of one member *)

Definition create_member_file (module_name member : string)
           (member_obj : pyobj) (destdir suffix : string) : M unit :=
  let text := ".. currentmodule:: " ++ module_name ++ Str.nl ++ Str.nl in
  shortest_import <- lift (find_shortest_import module_name member) ;;
  let import_text :=
    "(*Shortest import*: ``from " ++ shortest_import ++ " import "
      ++ member ++ ")``" ++ Str.nl ++ Str.nl in
  let text :=
    match obj_kind member_obj with
    | PyClass =>
        text ++ format_heading H1 (member ++ " class")
             ++ import_text
             ++ ".. autoclass:: " ++ member ++ Str.nl ++ Str.nl
             ++ auto_find_examples member_obj "-"
    | PyFunction =>
        text ++ format_heading H1 (member ++ " function")
             ++ import_text
             ++ ".. autofunction:: " ++ member ++ Str.nl ++ Str.nl
    | PyOther =>
        text ++ format_heading H1 (member ++ " object")
             ++ import_text
             ++ ".. autodata:: " ++ member ++ Str.nl
    end in
  write_file (makename (Some module_name) member) text destdir suffix.

(** *** SymbolClassifier *)

(** The three buckets [classes], [functions], [variables]. *)
Definition buckets : Type :=
  (list (string * pyobj) * list (string * pyobj) * list (string * pyobj))%type.

(** The loop [for member in dir_members] of [format_directive]. *)
Fixpoint classify_members (full_name : string) (dir_members : list string)
         (acc : buckets) : result buckets :=
  match dir_members with
  | [] => Ok acc
  | member :: rest =>
      match py_import env full_name [member] with
      | Raise e => Raise e
      | Ok _temp =>
          match getattr _temp member with
          | None => Raise (AttributeError member)
          | Some member_obj =>
              let member_module := obj_module member_obj in
              let '(classes, functions, variables) := acc in
              if option_string_eqb member_module (Some full_name)
                 && negb (Str.startswith member "_")
              then
                match obj_kind member_obj with
                | PyClass =>
                    classify_members full_name rest
                      ((classes ++ [(member, member_obj)])%list,
                       functions, variables)
                | PyFunction =>
                    classify_members full_name rest
                      (classes, (functions ++ [(member, member_obj)])%list,
                       variables)
                | PyOther =>
                    classify_members full_name rest
                      (classes, functions,
                       (variables ++ [(member, member_obj)])%list)
                end
              else classify_members full_name rest acc
          end
      end
  end.

(** One of the three listings: an autosummary entry and a stub per
    member of the bucket. *)
Fixpoint summarize (full_name destdir : string)
         (members : list (string * pyobj)) (directive : string) : M string :=
  match members with
  | [] => ret directive
  | (member, member_obj) :: rest =>
      let directive :=
        directive ++ ".. autosummary:: " ++ member ++ Str.nl
                  ++ "    :toctree:" ++ Str.nl ++ Str.nl in
      _ <- create_member_file full_name member member_obj destdir "rst" ;;
      summarize full_name destdir rest directive
  end.

Definition section (title full_name destdir : string)
           (members : list (string * pyobj)) (directive : string) : M string :=
  match members with
  | [] => ret directive
  | _ :: _ =>
      summarize full_name destdir members
                (directive ++ title ++ Str.nl ++ Str.nl)
  end.

Definition format_directive (module destdir : string)
           (package : option string) (basename : string) : M string :=
  let directive :=
    ".. automodule:: " ++ makename package module ++ Str.nl in
  let directive :=
    fold_left (fun d option => d ++ "    :" ++ option ++ ":" ++ Str.nl)
              OPTIONS directive in
  let directive := directive ++ Str.nl in
  let full_name := basename ++ "." ++ module in
  mod_ <- lift (py_import env full_name []) ;;
  let dir_members := dir mod_ in
  bs <- lift (classify_members full_name dir_members ([], [], [])) ;;
  let '(classes, functions, variables) := bs in
  directive <- section "**Classes**" full_name destdir classes directive ;;
  directive <- section "**Functions**" full_name destdir functions directive ;;
  directive <- section "**Objects**" full_name destdir variables directive ;;
  ret directive.

(** The default of the keyword argument [basename]. *)
Definition default_basename : string := "brian2".

(** *** DocumentWriter: the page of one package *)

(** The loop [for py_file in py_files] of [create_package_file]. *)
Fixpoint package_modules (root : string) (master_package : option string)
         (subroot : string) (py_files : list string) (destdir : string)
         (text : string) : M string :=
  match py_files with
  | [] => ret text
  | py_file :: rest =>
      skip <- lift (shall_skip fs (posixpath.join root py_file)) ;;
      if (skip : bool) then
        package_modules root master_package subroot rest destdir text
      else
        let is_package := String.eqb py_file INITPY in
        let py_file := fst (posixpath.splitext py_file) in
        let py_path := makename (Some subroot) py_file in
        let text :=
          if is_package then text
          else text ++ format_heading H2 (":mod:`" ++ py_file ++ "` module") in
        directive <- format_directive
                       (if is_package && truthy subroot then subroot else py_path)
                       destdir master_package default_basename ;;
        package_modules root master_package subroot rest destdir
                        (text ++ directive ++ Str.nl)
  end.

(** The lines of the subpackage table of contents. *)
Fixpoint toctree_entries (root : string) (master_package : option string)
         (subroot : string) (subs excludes : list string) (text : string)
  : string :=
  match subs with
  | [] => text
  | sub :: rest =>
      toctree_entries root master_package subroot rest excludes
        (if negb (is_excluded (posixpath.join root sub) excludes)
         then text ++ "    " ++ makename master_package subroot ++ "." ++ sub
                   ++ Str.nl
         else text)
  end.

Definition create_package_file (root : string) (master_package : option string)
           (subroot : string) (py_files subs : list string)
           (destdir : string) (excludes : list string) (suffix : string)
  : M unit :=
  let package := posixpath.split_tail root in
  let text := format_heading H1 (package ++ " package") in
  text <- package_modules root master_package subroot py_files destdir text ;;
  let subs :=
    filter (fun sub =>
              os.isfile fs (posixpath.join (posixpath.join root sub) INITPY))
           subs in
  let text :=
    match subs with
    | [] => text
    | _ :: _ =>
        let text := text ++ format_heading H2 "Subpackages"
                         ++ ".. toctree::" ++ Str.nl
                         ++ "    :maxdepth: 2" ++ Str.nl ++ Str.nl in
        toctree_entries root master_package subroot subs excludes text
          ++ Str.nl
    end in
  write_file (makename master_package subroot) text destdir suffix.

(** *** TreeWalker *)

(** [os.walk(top)], top-down: the loop body receives the path of the
    directory, the names of its subdirectories and of its other
    entries, and hands back the list of subdirectories as it has left
    it ([del subs[:]] hands back the empty list); the walk then
    descends into exactly those.  [acc] is whatever the loop carries
    from one iteration to the next.  An entry that cannot be scanned
    is passed over silently. *)
Fixpoint os_walk {A : Type}
         (body : string -> list string -> list string -> A -> M (list string * A))
         (top : string) (n : node) (acc : A) {struct n} : M A :=
  match n with
  | File _ => ret acc
  | Dir es =>
      r <- body top (os.dir_names es) (os.file_names es) acc ;;
      (fix descend_into (subs : list string) (acc : A) {struct subs} : M A :=
         match subs with
         | [] => ret acc
         | dirname :: rest =>
             acc <- (fix find (es : list (string * node)) : M A :=
                       match es with
                       | [] => ret acc
                       | (name, child) :: es' =>
                           if String.eqb name dirname
                           then os_walk body (posixpath.join top dirname)
                                        child acc
                           else find es'
                       end) es ;;
             descend_into rest acc
         end) (fst r) (snd r)
  end.

(** [sorted(sub for sub in subs if sub[0] not in [".", "_"])] *)
Fixpoint visible (subs : list string) : result (list string) :=
  match subs with
  | [] => Ok []
  | sub :: rest =>
      match sub with
      | EmptyString => Raise (IndexError "string index out of range")
      | String c _ =>
          match visible rest with
          | Raise e => Raise e
          | Ok rest' =>
              if Ascii.eqb c "."%char || Ascii.eqb c "_"%char
              then Ok rest' else Ok (sub :: rest')
          end
      end
  end.

Definition visible_sorted (subs : list string) : result (list string) :=
  match visible subs with
  | Ok l => Ok (Str.sorted l)
  | Raise e => Raise e
  end.

(** The module files of a directory listing that are to be documented. *)
Definition module_files (files exclude_files : list string) : list string :=
  Str.sorted
    (filter (fun f => String.eqb (snd (posixpath.splitext f)) ".py"
                      && negb (Str.mem f exclude_files))
            files).

(** [root[len(rootpath):].lstrip(path.sep).replace(path.sep, ".")] *)
Definition subpackage_of (rootpath root : string) : string :=
  Str.replace posixpath.sep_char "."%char
    (Str.lstrip posixpath.sep_char (Str.drop (String.length rootpath) root)).

(** The body of the loop [for root, subs, files in os.walk(rootpath)];
    it carries [toplevels].  [del subs[:]; continue] hands back the
    empty list. *)
Definition visit (rootpath : string) (root_package : option string)
           (exclude_dirs exclude_files : list string) (destdir : string)
           (root : string) (subs files : list string)
           (toplevels : list string) : M (list string * list string) :=
  if is_excluded root exclude_dirs then ret ([], toplevels)
  else
    (* document only Python module files *)
    let py_files := module_files files exclude_files in
    let is_pkg := Str.mem INITPY py_files in
    (* what follows the classification of the directory *)
    let document (py_files : list string) : M (list string * list string) :=
      (* remove hidden ('.') and private ('_') directories *)
      subs <- lift (visible_sorted subs) ;;
      if is_pkg then
        (* we are in a package with something to document *)
        something <-
          (if match subs with [] => false | _ :: _ => true end
              || Nat.ltb 1 (List.length py_files)
           then ret true
           else skip <- lift (shall_skip fs (posixpath.join root INITPY)) ;;
                ret (negb skip)) ;;
        if (something : bool) then
          let subpackage := subpackage_of rootpath root in
          _ <- create_package_file root root_package subpackage py_files
                                   subs destdir exclude_dirs "rst" ;;
          ret (subs, (toplevels ++ [makename root_package subpackage])%list)
        else ret (subs, toplevels)
      else throw (AssertionError "Expected it to be a package") in
    if is_pkg then
      document (INITPY :: Str.remove_first INITPY py_files)
    else if negb (String.eqb root rootpath) then
      (* only accept non-package at toplevel *)
      ret ([], toplevels)
    else document py_files.

Definition recurse_tree (rootpath : string)
           (exclude_dirs exclude_files : list string) (destdir : string)
  : M (list string) :=
  let rootpath := posixpath.normpath (posixpath.abspath (fs_cwd fs) rootpath) in
  listing <- lift (os.listdir fs rootpath) ;;
  let root_package :=
    if Str.mem INITPY listing
    then Some (List.last (Str.split posixpath.sep_char rootpath) "")
    else None in
  match os.lookup fs rootpath with
  | Some n =>
      os_walk (visit rootpath root_package exclude_dirs exclude_files destdir)
              rootpath n []
  | None => ret []
  end.

(** *** Entry point *)

Definition main (rootpath : string) (exclude_dirs exclude_files : list string)
           (destdir : string) : M unit :=
  _ <- (fun w =>
          if os.path_exists fs destdir || Str.mem destdir (made_dirs w)
          then ret tt w
          else makedirs destdir w) ;;
  let exclude_dirs := normalize_excludes rootpath exclude_dirs in
  modules <- recurse_tree rootpath exclude_dirs exclude_files destdir ;;
  ret tt.

End Generator.

(** ** Vocabulary of the specification *)

(** Fetching [X] from the dotted path [P] yields an object whose true
    origin is [M]: [P] re-exports [X]. *)
Definition retrievable_from (env : pyenv) (M X P : string) : Prop :=
  exists m o, py_import env P [X] = Ok m /\ getattr m X = Some o /\
              obj_module o = Some M.

(** [P] does not re-export [X]: the path loads, or is reported missing
    by an [ImportError], and fetching [X] from it gives nothing whose
    true origin is [M]. *)
Definition absent_from (env : pyenv) (M X P : string) : Prop :=
  match py_import env P [X] with
  | Ok m => match getattr m X with
            | Some o => obj_module o <> Some M
            | None => True
            end
  | Raise e => is_ImportError e = true
  end.

(** The candidate path as [is_excluded] compares it. *)
Definition with_trailing_sep (C : string) : string :=
  if Str.endswith C posixpath.sep then C else C ++ posixpath.sep.

(** The directory a raw exclusion names, in the words of the
    specification: joined with the root unless it is absolute or
    already starts with the root, then canonicalized. *)
Definition excluded_directory (root raw : string) : string :=
  posixpath.normpath
    (if posixpath.isabs raw || Str.startswith raw root then raw
     else posixpath.join root raw).

(** The rule made of it: the directory and a trailing separator. *)
Definition normalized_rule (root raw : string) : string :=
  excluded_directory root raw ++ posixpath.sep.

(** The stub written for [member] of the module [full_name]. *)
Definition stub_file (destdir full_name member : string) : string :=
  posixpath.join destdir (makename (Some full_name) member ++ "." ++ "rst").

(** A member the page of [full_name] may document: fetched from the
    module under that name, its true origin is that very name, and its
    own name has no private prefix. *)
Definition owned_public (env : pyenv) (full_name member : string)
           (obj : pyobj) : Prop :=
  (exists m, py_import env full_name [member] = Ok m /\
             getattr m member = Some obj) /\
  obj_module obj = Some full_name /\
  Str.startswith member "_" = false.

(** The text of a module block, as the specification lays it out: the
    automodule directive, then one listing per kind of member. *)
Definition automodule_block (package : option string) (module : string)
  : string :=
  ".. automodule:: " ++ makename package module ++ Str.nl
    ++ "    :show-inheritance:" ++ Str.nl ++ Str.nl.

Definition summary_entry (member : string) : string :=
  ".. autosummary:: " ++ member ++ Str.nl ++ "    :toctree:" ++ Str.nl ++ Str.nl.

Fixpoint summary_entries (members : list (string * pyobj)) : string :=
  match members with
  | [] => ""
  | m :: rest => summary_entry (fst m) ++ summary_entries rest
  end.

Definition summary_section (title : string) (members : list (string * pyobj))
  : string :=
  match members with
  | [] => ""
  | _ :: _ => title ++ Str.nl ++ Str.nl ++ summary_entries members
  end.

Definition member_listing (classes functions variables : list (string * pyobj))
  : string :=
  summary_section "**Classes**" classes
    ++ summary_section "**Functions**" functions
    ++ summary_section "**Objects**" variables.

(** Two import machineries bind the same modules under the top-level
    name [top]. *)
Definition loads_agree_under (top : string) (env1 env2 : pyenv) : Prop :=
  forall name fromlist,
    name = top \/ Str.startswith name (top ++ ".") = true ->
    py_import env1 name fromlist = py_import env2 name fromlist.

(** A text result with [prefix] put in front. *)
Definition prepend (prefix : string) (r : result string) : result string :=
  match r with
  | Ok t => Ok (prefix ++ t)
  | Raise e => Raise e
  end.

(** The dotted name under which [create_package_file] documents the
    module file [py_file] of the package [subroot], and the heading it
    puts before the block: none for the marker file. *)
Definition documented_module (subroot py_file : string) : string :=
  if String.eqb py_file INITPY && truthy subroot then subroot
  else makename (Some subroot) (fst (posixpath.splitext py_file)).

Definition module_heading (py_file : string) : string :=
  if String.eqb py_file INITPY then ""
  else format_heading H2 (":mod:`" ++ fst (posixpath.splitext py_file)
                                   ++ "` module").

(** The page written for the package [subroot] of [master_package]. *)
Definition page_file (destdir : string) (master_package : option string)
           (subroot suffix : string) : string :=
  posixpath.join destdir (makename master_package subroot ++ "." ++ suffix).

(** The root as [recurse_tree] resolves it. *)
Definition resolved_root (fs : filesystem) (rootpath : string) : string :=
  posixpath.normpath (posixpath.abspath (fs_cwd fs) rootpath).

(** The world [main] hands to [recurse_tree]: the destination has been
    created when it did not exist. *)
Definition prepared (fs : filesystem) (destdir : string) (w : world) : world :=
  if os.path_exists fs destdir || Str.mem destdir (made_dirs w)
  then w
  else mk_world (made_dirs w ++ [destdir])%list (written w) (printed w).

(** ** A small installation to run the generator on *)

Module Example.

Definition Quantity : pyobj :=
  mk_pyobj (Some "brian2.units.fundamentalunits") PyClass "Quantity".
Definition check_units : pyobj :=
  mk_pyobj (Some "brian2.units.fundamentalunits") PyFunction "check_units".
Definition _convert : pyobj :=
  mk_pyobj (Some "brian2.units.fundamentalunits") PyFunction "_convert".
Definition Network : pyobj := mk_pyobj (Some "brian2.core") PyClass "Network".
Definition helper : pyobj := mk_pyobj (Some "brian2.util") PyFunction "helper".
Definition numpy : pyobj := mk_pyobj None PyOther "numpy".

(** [brian2.core] holds [from brian2.util import helper]; [Quantity] is
    re-exported by [brian2.units] and by [brian2], [check_units] by
    [brian2.units] only. *)
Definition modules : list (string * pymodule) :=
  [ ("brian2", mk_pymodule [("Quantity", Quantity)]);
    ("brian2.__init__", mk_pymodule [("Quantity", Quantity)]);
    ("brian2.core",
     mk_pymodule [("Network", Network); ("helper", helper); ("np", numpy)]);
    ("brian2.util", mk_pymodule [("helper", helper)]);
    ("brian2.units",
     mk_pymodule [("Quantity", Quantity); ("check_units", check_units)]);
    ("brian2.units.fundamentalunits",
     mk_pymodule [("Quantity", Quantity); ("check_units", check_units);
                  ("_convert", _convert); ("np", numpy)]) ].

Definition env : pyenv :=
  mk_pyenv (fun name _ =>
              match assoc name modules with
              | Some m => Ok m
              | None => Raise (ImportError ("No module named " ++ name))
              end).

(** The same interpreter with one more top-level package installed. *)
Definition env_with_numpy : pyenv :=
  mk_pyenv (fun name fromlist =>
              if String.eqb name "numpy"
              then Ok (mk_pymodule [("ndarray", numpy)])
              else py_import env name fromlist).

Definition no_examples (obj : pyobj) (headersymbol : string) : string := "".

Definition brian2_tree : node :=
  Dir [ ("__init__.py", File 120);
        ("core.py", File 300);
        ("util.py", File 80);
        ("empty.py", File 1);
        ("README.txt", File 10);
        ("units", Dir [ ("__init__.py", File 0);
                        ("fundamentalunits.py", File 900) ]);
        ("data", Dir [ ("table.py", File 40) ]);
        ("_cython", Dir [ ("__init__.py", File 7) ]) ].

(** [/src/brian2] is the package above; [/src/stub] is a package with
    an empty marker and a plain data directory; [/src/bare] is a
    package with an empty marker and nothing else; [/src/plain] is a
    plain directory with a package inside; [/src/notes.txt] is a file. *)
Definition fs : filesystem :=
  mk_filesystem
    (Dir [ ("src",
            Dir [ ("brian2", brian2_tree);
                  ("stub", Dir [ ("__init__.py", File 0);
                                 ("data", Dir [ ("table.csv", File 64) ]) ]);
                  ("bare", Dir [ ("__init__.py", File 0) ]);
                  ("plain", Dir [ ("pkg", Dir [ ("__init__.py", File 30) ]) ]);
                  ("notes.txt", File 12) ]) ])
    "/src".

Definition nothing : world := mk_world [] [] [].

End Example.

(** The path under which [os.walk] enters the directory reached from
    [rootpath] through the entries [names], one after the other. *)
Definition entered_path (rootpath : string) (names : list string) : string :=
  fold_left posixpath.join names rootpath.

(** A name a directory entry can bear, as far as [posixpath.join] is
    concerned: not empty, and not starting with the separator. *)
Definition entry_name (name : string) : Prop :=
  name <> "" /\ Str.startswith name posixpath.sep = false.

(** The order of [sorted] on strings. *)
Definition str_le (a b : string) : Prop := String.leb a b = true.

(** The test of the comprehension that builds [py_files]: the module
    suffix, and not a blacklisted file name. *)
Definition is_module_file (exclude_files : list string) (f : string) : bool :=
  String.eqb (snd (posixpath.splitext f)) ".py"
  && negb (Str.mem f exclude_files).

(** A directory name the walk sets aside: hidden or private. *)
Definition hidden_or_private (sub : string) : bool :=
  match sub with
  | String c _ => Ascii.eqb c "."%char || Ascii.eqb c "_"%char
  | EmptyString => false
  end.

(** [c not in s] *)
Fixpoint free_of (c : ascii) (s : string) : bool :=
  match s with
  | EmptyString => true
  | String a s' => negb (Ascii.eqb a c) && free_of c s'
  end.

(** The name of a directory entry: not empty, no separator in it. *)
Definition plain_name (name : string) : Prop :=
  name <> "" /\ free_of posixpath.sep_char name = true.

(** The rest of a path below its first component, and of a dotted name. *)
Fixpoint slashed (names : list string) : string :=
  match names with
  | [] => ""
  | name :: rest => posixpath.sep ++ name ++ slashed rest
  end.

Fixpoint dotted (names : list string) : string :=
  match names with
  | [] => ""
  | name :: rest => "." ++ name ++ dotted rest
  end.

Definition pykind_eqb (a b : pykind) : bool :=
  match a, b with
  | PyClass, PyClass | PyFunction, PyFunction | PyOther, PyOther => true
  | _, _ => false
  end.

(** The entry of the listing of [kind] that the name [member] of
    [dir(mod)] gives rise to: itself with the object fetched under it,
    when that object is owned by [full_name], public and of the kind;
    nothing otherwise. *)
Definition selected (env : pyenv) (full_name : string) (kind : pykind)
           (member : string) : list (string * pyobj) :=
  match py_import env full_name [member] with
  | Ok m =>
      match getattr m member with
      | Some obj =>
          if option_string_eqb (obj_module obj) (Some full_name)
             && negb (Str.startswith member "_")
             && pykind_eqb (obj_kind obj) kind
          then [(member, obj)] else []
      | None => []
      end
  | Raise _ => []
  end.

(** The line [write_file] prints for a file. *)
Definition announcement (file : string * string) : string :=
  "Creating file " ++ fst file ++ ".".

(** The world after [files] have been written, each announced. *)
Definition add_files (w : world) (files : list (string * string)) : world :=
  mk_world (made_dirs w) (written w ++ files)%list
           (printed w ++ map announcement files)%list.

(** A computation that, whatever the world it starts from, ends in [r]
    having written [files], each announced, and made no directory. *)
Definition writes {A : Type} (m : M A) (r : result A)
           (files : list (string * string)) : Prop :=
  forall w, m w = (r, add_files w files).

(** An output file: a [.rst] file directly in the destination. *)
Definition rst_file (destdir : string) (file : string * string) : Prop :=
  exists name, fst file = posixpath.join destdir (name ++ "." ++ "rst").

(** A computation that, from any world, ends the same way having
    written the same output files. *)
Definition tidy {A : Type} (destdir : string) (m : M A) : Prop :=
  exists r files, writes m r files /\ Forall (rst_file destdir) files.

(** The two inner loops of [os.walk], for a given way [walk] of
    walking a subdirectory: finding the entry a name refers to, and
    going through the names left by the loop body. *)
Section WalkLoops.

Context {A : Type}.
Variable walk : string -> node -> A -> M A.
Variable top : string.

Section Find.
Variable dirname : string.
Variable acc : A.

Fixpoint find_entry (es : list (string * node)) : M A :=
  match es with
  | [] => ret acc
  | (name, child) :: es' =>
      if String.eqb name dirname
      then walk (posixpath.join top dirname) child acc
      else find_entry es'
  end.

End Find.

Variable es : list (string * node).

Fixpoint descend_entries (subs : list string) (acc : A) {struct subs} : M A :=
  match subs with
  | [] => ret acc
  | dirname :: rest =>
      acc <- find_entry dirname acc es ;;
      descend_entries rest acc
  end.

End WalkLoops.

(** The table of subpackages that closes a package page: one line per
    subdirectory that holds a marker file and is not excluded, under a
    heading that is there as soon as one subdirectory holds a marker
    file. *)
Definition toctree_line (master_package : option string)
           (subroot sub : string) : string :=
  "    " ++ makename master_package subroot ++ "." ++ sub ++ Str.nl.

Definition subpackages_block (fs : filesystem) (root : string)
           (master_package : option string) (subroot : string)
           (subs excludes : list string) : string :=
  match filter (fun sub =>
                  os.isfile fs (posixpath.join (posixpath.join root sub)
                                               INITPY))
               subs with
  | [] => ""
  | packages =>
      format_heading H2 "Subpackages"
        ++ ".. toctree::" ++ Str.nl ++ "    :maxdepth: 2" ++ Str.nl ++ Str.nl
        ++ String.concat ""
             (map (toctree_line master_package subroot)
                  (filter (fun sub =>
                             negb (is_excluded (posixpath.join root sub)
                                               excludes))
                          packages))
        ++ Str.nl
  end.

(** The example interpreter with one more module, [brian2.broken],
    whose body fails when it is run: loading it raises an exception
    that is not an [ImportError]. *)
Definition env_with_broken_module : pyenv :=
  mk_pyenv (fun name fromlist =>
              if String.eqb name "brian2.broken"
              then Raise (OtherException "ValueError")
              else py_import Example.env name fromlist).

(** * Properties *)

(** ** Strings *)

Lemma option_string_eqb_eq (a b : option string) :
  option_string_eqb a b = true <-> a = b.
Proof.
  destruct a as [x|], b as [y|]; simpl; split; intros H;
    try discriminate; try reflexivity.
  - apply String.eqb_eq in H. now subst.
  - injection H as ->. apply String.eqb_refl.
Qed.

Lemma prefix_app_cancel (d x y : string) :
  String.prefix (d ++ x) (d ++ y) = String.prefix x y.
Proof.
  induction d as [|a d IH]; cbn -[ascii_dec]; [reflexivity|].
  destruct (ascii_dec a a) as [_|N]; [exact IH | now elim N].
Qed.

Lemma prefix_sep_app (x y : string) :
  x <> "" -> String.prefix posixpath.sep (x ++ y) = String.prefix posixpath.sep x.
Proof.
  destruct x as [|a x]; [intros H; now elim H|]. intros _.
  cbn -[ascii_dec]. destruct (ascii_dec "/" a); [|reflexivity].
  now destruct x, y.
Qed.

Lemma append_assoc (a b c : string) : (a ++ b) ++ c = a ++ (b ++ c).
Proof. induction a as [|x a IH]; simpl; [reflexivity | now rewrite IH]. Qed.

Lemma append_nil_r (a : string) : a ++ "" = a.
Proof. induction a as [|x a IH]; simpl; [reflexivity | now rewrite IH]. Qed.

Lemma prefix_nil (s : string) : String.prefix "" s = true.
Proof. now destruct s. Qed.

Lemma startswith_app (d s : string) : Str.startswith (d ++ s) d = true.
Proof.
  unfold Str.startswith. rewrite <- (append_nil_r d) at 1.
  rewrite prefix_app_cancel. apply prefix_nil.
Qed.

Lemma length_append (a b : string) :
  String.length (a ++ b) = String.length a + String.length b.
Proof. induction a as [|x a IH]; simpl; [reflexivity | now rewrite IH]. Qed.

Lemma join_longer (top name : string) :
  entry_name name ->
  String.length top < String.length (posixpath.join top name).
Proof.
  intros [Hne Hs]. unfold posixpath.join. rewrite Hs.
  assert (0 < String.length name) by (destruct name; simpl; [now elim Hne|lia]).
  destruct (_ || _)%bool; rewrite !length_append; simpl; lia.
Qed.

Lemma entered_path_longer (names : list string) :
  Forall entry_name names ->
  forall rootpath,
    String.length rootpath + List.length names
    <= String.length (entered_path rootpath names).
Proof.
  unfold entered_path.
  induction 1 as [|name names Hname _ IH]; intros rootpath; simpl; [lia|].
  specialize (IH (posixpath.join rootpath name)).
  pose proof (join_longer rootpath name Hname). lia.
Qed.

(** ** ImportResolver *)

Section ImportResolverFacts.

Variable env : pyenv.

Lemma scan_prefixes_first_hit (M X : string) (parts : list string) :
  forall (before : list nat) (k : nat) (after : list nat),
    (forall j, In j before ->
               absent_from env M X (Str.join "." (firstn j parts))) ->
    retrievable_from env M X (Str.join "." (firstn k parts)) ->
    scan_prefixes env M X parts (before ++ k :: after)%list
    = Ok (Str.join "." (firstn k parts)).
Proof.
  induction before as [|j before IH]; intros k after Habs Hhit.
  - destruct Hhit as (m & o & Him & Hget & Horig). simpl.
    rewrite Him, Hget.
    replace (option_string_eqb (obj_module o) (Some M)) with true; [reflexivity|].
    symmetry. now apply option_string_eqb_eq.
  - simpl.
    assert (Hj := Habs j (or_introl eq_refl)). unfold absent_from in Hj.
    assert (Hrest : scan_prefixes env M X parts (before ++ k :: after)%list
                    = Ok (Str.join "." (firstn k parts))).
    { apply IH; [|exact Hhit]. intros i Hi. apply Habs. now right. }
    destruct (py_import env (Str.join "." (firstn j parts)) [X]) as [m|e].
    + destruct (getattr m X) as [o|]; [|exact Hrest].
      destruct (option_string_eqb (obj_module o) (Some M)) eqn:E; [|exact Hrest].
      apply option_string_eqb_eq in E. now elim Hj.
    + rewrite Hj. exact Hrest.
Qed.

Lemma scan_prefixes_no_hit (M X : string) (parts : list string) :
  forall idxs : list nat,
    (forall j, In j idxs ->
               ~ retrievable_from env M X (Str.join "." (firstn j parts))) ->
    exists e, scan_prefixes env M X parts idxs = Raise e.
Proof.
  induction idxs as [|j idxs IH]; intros Hno; simpl.
  - eexists; reflexivity.
  - assert (Hj := Hno j (or_introl eq_refl)).
    assert (Hrest : exists e, scan_prefixes env M X parts idxs = Raise e).
    { apply IH. intros i Hi. apply Hno. now right. }
    destruct (py_import env (Str.join "." (firstn j parts)) [X]) as [m|e] eqn:Him.
    + destruct (getattr m X) as [o|] eqn:Hget; [|exact Hrest].
      destruct (option_string_eqb (obj_module o) (Some M)) eqn:E; [|exact Hrest].
      apply option_string_eqb_eq in E. elim Hj. now exists m, o.
    + destruct (is_ImportError e); [exact Hrest | now exists e].
Qed.

(** A load that fails with anything but an [ImportError] ends the
    scan at once: the exception is the outcome, as for every other
    load failure of a run. *)
Lemma scan_prefixes_load_failure (M X : string) (parts : list string) :
  forall (before : list nat) (k : nat) (after : list nat) (e : exn),
    (forall j, In j before ->
               absent_from env M X (Str.join "." (firstn j parts))) ->
    py_import env (Str.join "." (firstn k parts)) [X] = Raise e ->
    is_ImportError e = false ->
    scan_prefixes env M X parts (before ++ k :: after)%list = Raise e.
Proof.
  induction before as [|j before IH]; intros k after e Habs Hload He.
  - simpl. now rewrite Hload, He.
  - simpl.
    assert (Hj := Habs j (or_introl eq_refl)). unfold absent_from in Hj.
    assert (Hrest : scan_prefixes env M X parts (before ++ k :: after)%list
                    = Raise e).
    { apply IH; [|exact Hload|exact He]. intros i Hi. apply Habs. now right. }
    destruct (py_import env (Str.join "." (firstn j parts)) [X]) as [m|e'].
    + destruct (getattr m X) as [o|]; [|exact Hrest].
      destruct (option_string_eqb (obj_module o) (Some M)) eqn:E;
        [|exact Hrest].
      apply option_string_eqb_eq in E. now elim Hj.
    + rewrite Hj. exact Hrest.
Qed.


(** C2. When no dotted prefix of [M], the full path included, yields
    an object whose true origin is [M], [find_shortest_import M X]
    raises; it returns no value, the full path no more than any
    other. *)
Theorem find_shortest_import_unresolved_raises :
  forall (M X : string),
    (forall idx, 1 <= idx <= List.length (Str.split "."%char M) ->
                 ~ retrievable_from env M X (dotted_prefix M idx)) ->
    exists e, find_shortest_import env M X = Raise e.
Proof.
  intros M X Hno. unfold find_shortest_import.
  apply scan_prefixes_no_hit. intros j Hj. apply in_seq in Hj.
  apply Hno. lia.
Qed.

End ImportResolverFacts.

(** ** ExclusionMatcher *)

Lemma any_startswith_iff (s : string) (rules : list string) :
  any_startswith s rules = true <->
  exists rule, In rule rules /\ Str.startswith s rule = true.
Proof.
  induction rules as [|r rules IH]; simpl.
  - split; [discriminate | intros (x & [] & _)].
  - destruct (Str.startswith s r) eqn:E.
    + split; [|reflexivity]. intros _. exists r. now split; [left|].
    + rewrite IH. split; intros (x & Hin & Hx).
      * exists x. now split; [right|].
      * destruct Hin as [<-|Hin]; [congruence | now exists x].
Qed.

Lemma normalize_excludes_rules (root : string) (excludes : list string) :
  normalize_excludes root excludes = map (normalized_rule root) excludes.
Proof.
  unfold normalize_excludes. apply map_ext. intros raw.
  unfold normalized_rule, excluded_directory.
  now destruct (posixpath.isabs raw), (Str.startswith raw root).
Qed.

Lemma is_excluded_spec (C : string) (rules : list string) :
  is_excluded C rules = true <->
  exists rule, In rule rules /\
               Str.startswith (with_trailing_sep C) rule = true.
Proof. unfold is_excluded. apply any_startswith_iff. Qed.

Lemma sibling_not_under (d suffix : string) :
  suffix <> "" ->
  Str.startswith suffix posixpath.sep = false ->
  Str.startswith (with_trailing_sep (d ++ suffix)) (d ++ posixpath.sep) = false.
Proof.
  intros Hne Hs. unfold with_trailing_sep, Str.startswith in *.
  destruct (Str.endswith (d ++ suffix) posixpath.sep).
  - now rewrite prefix_app_cancel.
  - rewrite append_assoc, prefix_app_cancel, prefix_sep_app; assumption.
Qed.


(** ** The effect monad *)

Lemma bind_ok {A B : Type} (m : M A) (k : A -> M B) (w w1 : world) (a : A) :
  m w = (Ok a, w1) -> bind m k w = k a w1.
Proof. intros H. unfold bind. now rewrite H. Qed.

Lemma bind_raise {A B : Type} (m : M A) (k : A -> M B) (w w1 : world) (e : exn) :
  m w = (Raise e, w1) -> bind m k w = (Raise e, w1).
Proof. intros H. unfold bind. now rewrite H. Qed.

Lemma write_file_written (name text destdir suffix : string) (w : world) :
  exists w1, write_file name text destdir suffix w = (Ok tt, w1) /\
             made_dirs w1 = made_dirs w /\
             written w1 = (written w
                             ++ [(posixpath.join destdir (name ++ "." ++ suffix),
                                  text)])%list.
Proof. eexists. split; [reflexivity|]. split; reflexivity. Qed.

(** ** SymbolClassifier *)

Section SymbolClassifierFacts.

Variable env : pyenv.
Variable auto_find_examples : pyobj -> string -> string.

Local Abbreviation all_owned full_name l :=
  (forall member obj, In (member, obj) l ->
                      owned_public env full_name member obj).

Lemma classify_members_owned (full_name : string) :
  forall (dir_members : list string)
         (c f v c' f' v' : list (string * pyobj)),
    classify_members env full_name dir_members (c, f, v) = Ok (c', f', v') ->
    all_owned full_name (c ++ f ++ v)%list ->
    all_owned full_name (c' ++ f' ++ v')%list.
Proof.
  induction dir_members as [|member rest IH]; intros c f v c' f' v' H Hacc.
  - simpl in H. injection H as <- <- <-. exact Hacc.
  - simpl in H.
    destruct (py_import env full_name [member]) as [m|e] eqn:Him;
      [|discriminate].
    destruct (getattr m member) as [obj|] eqn:Hget; [|discriminate].
    destruct (option_string_eqb (obj_module obj) (Some full_name)
              && negb (Str.startswith member "_")) eqn:Hkeep.
    + apply andb_true_iff in Hkeep. destruct Hkeep as [Ho Hp].
      apply option_string_eqb_eq in Ho. apply negb_true_iff in Hp.
      assert (Hnew : owned_public env full_name member obj).
      { split; [now exists m | now split]. }
      destruct (obj_kind obj); (eapply IH; [exact H|]);
        intros member0 obj0 Hin;
        repeat (rewrite in_app_iff in Hin; simpl in Hin);
        (assert (Hc : In (member0, obj0) (c ++ f ++ v)%list
                      \/ (member, obj) = (member0, obj0))
            by (repeat rewrite in_app_iff; tauto));
        (destruct Hc as [Hc|Hc];
         [now apply Hacc | injection Hc as <- <-; exact Hnew]).
    + eapply IH; [exact H | exact Hacc].
Qed.

Lemma create_member_file_effect
      (full_name member : string) (obj : pyobj) (destdir : string) (w : world) :
  (exists e, create_member_file env auto_find_examples full_name member obj
                                destdir "rst" w = (Raise e, w))
  \/
  (exists text w1,
      create_member_file env auto_find_examples full_name member obj
                         destdir "rst" w = (Ok tt, w1) /\
      made_dirs w1 = made_dirs w /\
      written w1 = (written w ++ [(stub_file destdir full_name member, text)])%list).
Proof.
  unfold create_member_file, bind, lift.
  destruct (find_shortest_import env full_name member) as [shortest|e].
  - right.
    match goal with
    | |- context [write_file ?n ?t ?d ?s w] =>
        destruct (write_file_written n t d s w) as (w1 & Hw & Hm & Hwr);
        exists t, w1
    end.
    split; [exact Hw|]. split; [exact Hm | exact Hwr].
  - left. now exists e.
Qed.

(** What one listing leaves: a stub per member it got through, in
    order; on success, all of them and the entries appended. *)
Lemma summarize_effect (full_name destdir : string) :
  forall (members : list (string * pyobj)) (directive : string) (w : world),
  exists (r : result string) (w1 : world) (stubs : list (string * string))
         (done : list (string * pyobj)),
    summarize env auto_find_examples full_name destdir members directive w
    = (r, w1) /\
    made_dirs w1 = made_dirs w /\
    written w1 = (written w ++ stubs)%list /\
    map fst stubs = map (fun m => stub_file destdir full_name (fst m)) done /\
    (exists rest, members = (done ++ rest)%list) /\
    (forall d, r = Ok d ->
               done = members /\ d = directive ++ summary_entries members).
Proof.
  induction members as [|[member obj] rest IH]; intros directive w.
  - exists (Ok directive), w, [], []. simpl.
    repeat split; try (now rewrite ?app_nil_r).
    + now exists [].
    + injection H as <-. now rewrite append_nil_r.
  - simpl.
    destruct (create_member_file_effect full_name member obj destdir w)
      as [(e & He)|(text & w1 & He & Hm1 & Hw1)].
    + exists (Raise e), w, [], []. erewrite bind_raise by exact He.
      repeat split; try (now rewrite ?app_nil_r); try discriminate.
      now exists ((member, obj) :: rest).
    + erewrite bind_ok by exact He.
      match goal with
      | |- context [summarize _ _ _ _ rest ?d w1] =>
          destruct (IH d w1) as (r & w2 & stubs & done & Hs & Hm2 & Hw2 & Hn & (rest' & Hr) & Hok)
      end.
      exists r, w2, ((stub_file destdir full_name member, text) :: stubs),
             ((member, obj) :: done).
      split; [exact Hs|]. split; [congruence|].
      split; [rewrite Hw2, Hw1, <- app_assoc; reflexivity|].
      split; [simpl; now rewrite Hn|].
      split; [exists rest'; simpl; now rewrite Hr|].
      intros d Hd. destruct (Hok d Hd) as [-> ->]. split; [reflexivity|].
      etransitivity; [apply append_assoc|]. reflexivity.
Qed.

Lemma section_effect (title full_name destdir : string) :
  forall (members : list (string * pyobj)) (directive : string) (w : world),
  exists (r : result string) (w1 : world) (stubs : list (string * string))
         (done : list (string * pyobj)),
    section env auto_find_examples title full_name destdir members directive w
    = (r, w1) /\
    made_dirs w1 = made_dirs w /\
    written w1 = (written w ++ stubs)%list /\
    map fst stubs = map (fun m => stub_file destdir full_name (fst m)) done /\
    (exists rest, members = (done ++ rest)%list) /\
    (forall d, r = Ok d ->
               done = members /\ d = directive ++ summary_section title members).
Proof.
  intros [|m members] directive w.
  - exists (Ok directive), w, [], []. simpl.
    repeat split; try (now rewrite ?app_nil_r).
    + now exists [].
    + injection H as <-. now rewrite append_nil_r.
  - unfold section.
    destruct (summarize_effect full_name destdir (m :: members)
                               (directive ++ title ++ Str.nl ++ Str.nl) w)
      as (r & w1 & stubs & done & Hs & Hm & Hw & Hn & Hr & Hok).
    exists r, w1, stubs, done. repeat (split; [assumption|]).
    intros d Hd. destruct (Hok d Hd) as [-> ->]. split; [reflexivity|].
    unfold summary_section. now rewrite !append_assoc.
Qed.

Lemma stubs_of_members_owned (full_name destdir : string)
      (members done rest : list (string * pyobj))
      (stubs : list (string * string)) :
  all_owned full_name members ->
  members = (done ++ rest)%list ->
  map fst stubs = map (fun m => stub_file destdir full_name (fst m)) done ->
  forall file, In file stubs ->
    exists member obj, fst file = stub_file destdir full_name member /\
                       owned_public env full_name member obj.
Proof.
  intros Hall -> Hn file Hin.
  apply (in_map fst) in Hin. rewrite Hn in Hin. apply in_map_iff in Hin.
  destruct Hin as ([member obj] & Hf & Hd). exists member, obj.
  split; [now rewrite <- Hf|]. apply Hall. apply in_app_iff. now left.
Qed.

(** C4. Whatever [format_directive] does for a module, loaded under
    [full_name = basename.module]: every file it writes is the stub of
    a member whose true origin is [full_name] exactly and whose name
    has no private prefix; and when it returns, the text is the
    automodule block followed by the listings of three buckets made of
    such members only, each of which got its stub.  A name imported
    into the module from elsewhere has another true origin and gets
    neither. *)
Theorem format_directive_documents_owned_members_only :
  forall (module destdir : string) (package : option string)
         (w w1 : world) (r : result string),
    format_directive env auto_find_examples module destdir package
                     default_basename w = (r, w1) ->
    let full_name := default_basename ++ "." ++ module in
    exists stubs : list (string * string),
      written w1 = (written w ++ stubs)%list /\
      (forall file, In file stubs ->
         exists member obj,
           fst file = stub_file destdir full_name member /\
           owned_public env full_name member obj) /\
      (forall directive, r = Ok directive ->
         exists classes functions variables,
           directive = automodule_block package module
                         ++ member_listing classes functions variables /\
           map fst stubs
           = map (fun m => stub_file destdir full_name (fst m))
                 (classes ++ functions ++ variables)%list /\
           (forall member obj,
               In (member, obj) (classes ++ functions ++ variables)%list ->
               owned_public env full_name member obj)).
Proof.
  intros module destdir package w w1 r H full_name.
  unfold format_directive in H. fold full_name in H.
  unfold bind at 1, lift at 1 in H.
  destruct (py_import env full_name []) as [mod_|e].
  2:{ injection H as <- <-. exists []. rewrite app_nil_r.
      split; [reflexivity|]. split; [intros ? []|discriminate]. }
  unfold bind at 1, lift at 1 in H.
  destruct (classify_members env full_name (dir mod_) ([], [], []))
    as [[[c f] v]|e] eqn:Hcl.
  2:{ injection H as <- <-. exists []. rewrite app_nil_r.
      split; [reflexivity|]. split; [intros ? []|discriminate]. }
  assert (Hall : all_owned full_name (c ++ f ++ v)%list).
  { eapply classify_members_owned; [exact Hcl|]. intros ? ? []. }
  assert (Hc : all_owned full_name c).
  { intros m o Hin. apply Hall. apply in_app_iff. now left. }
  assert (Hf : all_owned full_name f).
  { intros m o Hin. apply Hall. rewrite !in_app_iff. tauto. }
  assert (Hv : all_owned full_name v).
  { intros m o Hin. apply Hall. rewrite !in_app_iff. tauto. }
  match type of H with
  | bind (section _ _ ?t _ _ _ ?d) _ w = _ =>
      destruct (section_effect t full_name destdir c d w)
        as (r1 & u1 & s1 & d1 & E1 & _ & W1 & N1 & (x1 & R1) & K1)
  end.
  assert (O1 := stubs_of_members_owned full_name destdir c d1 x1 s1 Hc R1 N1).
  destruct r1 as [t1|e1].
  2:{ erewrite bind_raise in H by exact E1. injection H as <- <-.
      exists s1. split; [exact W1|]. split; [exact O1|discriminate]. }
  erewrite bind_ok in H by exact E1.
  destruct (K1 t1 eq_refl) as [-> ->].
  match type of H with
  | bind (section _ _ ?t _ _ _ ?d) _ u1 = _ =>
      destruct (section_effect t full_name destdir f d u1)
        as (r2 & u2 & s2 & d2 & E2 & _ & W2 & N2 & (x2 & R2) & K2)
  end.
  assert (O2 := stubs_of_members_owned full_name destdir f d2 x2 s2 Hf R2 N2).
  destruct r2 as [t2|e2].
  2:{ erewrite bind_raise in H by exact E2. injection H as <- <-.
      exists (s1 ++ s2)%list. split; [now rewrite W2, W1, app_assoc|].
      split; [|discriminate].
      intros file Hin. apply in_app_iff in Hin. destruct Hin; auto. }
  erewrite bind_ok in H by exact E2.
  destruct (K2 t2 eq_refl) as [-> ->].
  match type of H with
  | bind (section _ _ ?t _ _ _ ?d) _ u2 = _ =>
      destruct (section_effect t full_name destdir v d u2)
        as (r3 & u3 & s3 & d3 & E3 & _ & W3 & N3 & (x3 & R3) & K3)
  end.
  assert (O3 := stubs_of_members_owned full_name destdir v d3 x3 s3 Hv R3 N3).
  assert (Hwr : written u3 = (written w ++ (s1 ++ s2 ++ s3))%list).
  { now rewrite W3, W2, W1, <- !app_assoc. }
  assert (Hown : forall file, In file (s1 ++ s2 ++ s3)%list ->
            exists member obj,
              fst file = stub_file destdir full_name member /\
              owned_public env full_name member obj).
  { intros file Hin. rewrite !in_app_iff in Hin.
    destruct Hin as [|[|]]; auto. }
  destruct r3 as [t3|e3].
  2:{ erewrite bind_raise in H by exact E3. injection H as <- <-.
      exists (s1 ++ s2 ++ s3)%list. split; [exact Hwr|].
      split; [exact Hown | discriminate]. }
  erewrite bind_ok in H by exact E3.
  destruct (K3 t3 eq_refl) as [-> ->].
  unfold ret in H. injection H as <- <-.
  exists (s1 ++ s2 ++ s3)%list. split; [exact Hwr|]. split; [exact Hown|].
  intros directive Hd. injection Hd as <-.
  exists c, f, v. split; [|split; [|exact Hall]].
  - unfold member_listing, automodule_block.
    rewrite !append_assoc. reflexivity.
  - rewrite !map_app. now rewrite N1, N2, N3.
Qed.

End SymbolClassifierFacts.

(** ** Loading under the fixed base name *)

Lemma split_brian2 (module : string) :
  Str.split "."%char (default_basename ++ "." ++ module)
  = "brian2" :: Str.split "."%char module.
Proof.
  unfold default_basename. cbn -[Str.split].
  cbn [Str.split Ascii.eqb Bool.eqb].
  destruct (Str.split "." module); reflexivity.
Qed.

Lemma prefix_of_brian2 (rest : list string) (idx : nat) :
  1 <= idx ->
  let name := Str.join "." (firstn idx ("brian2" :: rest)) in
  name = "brian2" \/ Str.startswith name ("brian2" ++ ".") = true.
Proof.
  intros Hidx. destruct idx as [|idx]; [lia|]. simpl firstn.
  destruct (firstn idx rest) as [|x l]; [now left|right].
  change (Str.join "." ("brian2" :: x :: l))
    with ("brian2." ++ Str.join "." (x :: l)).
  apply (startswith_app "brian2.").
Qed.

Section BaseNameFacts.

Variables env1 env2 : pyenv.
Variable auto_find_examples : pyobj -> string -> string.
Hypothesis Hagree : loads_agree_under "brian2" env1 env2.

Lemma scan_prefixes_agree (M X : string) (rest : list string) :
  forall idxs : list nat,
    Forall (fun idx => 1 <= idx) idxs ->
    scan_prefixes env1 M X ("brian2" :: rest) idxs
    = scan_prefixes env2 M X ("brian2" :: rest) idxs.
Proof.
  induction idxs as [|idx idxs IH]; intros Hall; [reflexivity|].
  inversion Hall as [|? ? Hidx Hall']; subst.
  cbn [scan_prefixes].
  rewrite (Hagree _ [X] (@prefix_of_brian2 rest idx Hidx)).
  now rewrite (IH Hall').
Qed.

Lemma find_shortest_import_agree (module member : string) :
  find_shortest_import env1 (default_basename ++ "." ++ module) member
  = find_shortest_import env2 (default_basename ++ "." ++ module) member.
Proof.
  unfold find_shortest_import. rewrite split_brian2.
  apply scan_prefixes_agree. apply Forall_forall. intros idx Hin.
  apply in_seq in Hin. lia.
Qed.

Lemma import_agree (module : string) (fromlist : list string) :
  py_import env1 (default_basename ++ "." ++ module) fromlist
  = py_import env2 (default_basename ++ "." ++ module) fromlist.
Proof. apply Hagree. right. apply (startswith_app "brian2."). Qed.

Lemma classify_members_agree (module : string) :
  forall (dir_members : list string) (acc : buckets),
    classify_members env1 (default_basename ++ "." ++ module) dir_members acc
    = classify_members env2 (default_basename ++ "." ++ module) dir_members acc.
Proof.
  induction dir_members as [|member rest IH]; intros acc; [reflexivity|].
  cbn [classify_members]. rewrite import_agree.
  destruct (py_import env2 _ [member]) as [m|e]; [|reflexivity].
  destruct (getattr m member) as [obj|]; [|reflexivity].
  destruct acc as [[c f] v].
  destruct (_ && _); [|apply IH].
  destruct (obj_kind obj); apply IH.
Qed.

Lemma create_member_file_agree (module member : string) (obj : pyobj)
      (destdir suffix : string) (w : world) :
  create_member_file env1 auto_find_examples
                     (default_basename ++ "." ++ module) member obj
                     destdir suffix w
  = create_member_file env2 auto_find_examples
                       (default_basename ++ "." ++ module) member obj
                       destdir suffix w.
Proof.
  unfold create_member_file. now rewrite find_shortest_import_agree.
Qed.

Lemma summarize_agree (module destdir : string) :
  forall (members : list (string * pyobj)) (directive : string) (w : world),
    summarize env1 auto_find_examples (default_basename ++ "." ++ module)
              destdir members directive w
    = summarize env2 auto_find_examples (default_basename ++ "." ++ module)
                destdir members directive w.
Proof.
  induction members as [|[member obj] rest IH]; intros directive w;
    [reflexivity|].
  cbn [summarize]. unfold bind. rewrite create_member_file_agree.
  destruct (create_member_file env2 _ _ _ _ _ _ w) as [[[]|e] w1];
    [apply IH | reflexivity].
Qed.

Lemma section_agree (title module destdir : string)
      (members : list (string * pyobj)) (directive : string) (w : world) :
  section env1 auto_find_examples title (default_basename ++ "." ++ module)
          destdir members directive w
  = section env2 auto_find_examples title (default_basename ++ "." ++ module)
            destdir members directive w.
Proof.
  destruct members; [reflexivity|]. unfold section. apply summarize_agree.
Qed.

Lemma format_directive_agree (module destdir : string)
      (package : option string) (w : world) :
  format_directive env1 auto_find_examples module destdir package
                   default_basename w
  = format_directive env2 auto_find_examples module destdir package
                     default_basename w.
Proof.
  unfold format_directive, bind, lift. rewrite import_agree.
  destruct (py_import env2 _ []) as [mod_|e]; [|reflexivity].
  rewrite classify_members_agree.
  destruct (classify_members env2 _ _ _) as [[[c f] v]|e]; [|reflexivity].
  rewrite section_agree.
  destruct (section env2 _ _ _ _ c _ w) as [[t1|e1] u1]; [|reflexivity].
  rewrite section_agree.
  destruct (section env2 _ _ _ _ f _ u1) as [[t2|e2] u2]; [|reflexivity].
  rewrite section_agree. reflexivity.
Qed.

End BaseNameFacts.

Lemma prepend_prepend (a b : string) (r : result string) :
  prepend a (prepend b r) = prepend (a ++ b) r.
Proof. destruct r; simpl; [now rewrite append_assoc | reflexivity]. Qed.

Section ListingFacts.

Variable env : pyenv.
Variable auto_find_examples : pyobj -> string -> string.

(** The text handed to a listing only ends up in front of what the
    listing adds: stubs and failures do not depend on it. *)
Lemma summarize_prepend (full_name destdir : string) :
  forall (members : list (string * pyobj)) (directive : string) (w : world),
    summarize env auto_find_examples full_name destdir members directive w
    = (prepend directive
         (fst (summarize env auto_find_examples full_name destdir members "" w)),
       snd (summarize env auto_find_examples full_name destdir members "" w)).
Proof.
  induction members as [|[member obj] rest IH]; intros directive w.
  - simpl. now rewrite append_nil_r.
  - cbn [summarize]. unfold bind.
    destruct (create_member_file env _ _ _ _ _ _ w) as [[[]|e] w1];
      [|reflexivity].
    rewrite IH. rewrite (IH ("" ++ _)). cbn [fst snd].
    now rewrite prepend_prepend.
Qed.

Lemma section_prepend (title full_name destdir : string)
      (members : list (string * pyobj)) (directive : string) (w : world) :
  section env auto_find_examples title full_name destdir members directive w
  = (prepend directive
       (fst (section env auto_find_examples title full_name destdir members "" w)),
     snd (section env auto_find_examples title full_name destdir members "" w)).
Proof.
  destruct members as [|m members].
  - simpl. now rewrite append_nil_r.
  - unfold section. rewrite summarize_prepend.
    rewrite (summarize_prepend _ _ _ ("" ++ _)). cbn [fst snd].
    now rewrite prepend_prepend.
Qed.

Lemma format_directive_package_only_in_header (module destdir : string)
      (w : world) :
  exists (listing : result string) (w1 : world),
    forall package : option string,
      format_directive env auto_find_examples module destdir package
                       default_basename w
      = (prepend (automodule_block package module) listing, w1).
Proof.
  unfold format_directive, bind, lift.
  destruct (py_import env _ []) as [mod_|e];
    [|exists (Raise e), w; reflexivity].
  destruct (classify_members env _ _ _) as [[[c f] v]|e];
    [|exists (Raise e), w; reflexivity].
  set (full_name := default_basename ++ "." ++ module).
  destruct (section env auto_find_examples "**Classes**" full_name destdir
                    c "" w) as [r1 u1] eqn:E1.
  destruct r1 as [t1|e1].
  2:{ exists (Raise e1), u1. intros package.
      rewrite section_prepend, E1. reflexivity. }
  destruct (section env auto_find_examples "**Functions**" full_name destdir
                    f "" u1) as [r2 u2] eqn:E2.
  destruct r2 as [t2|e2].
  2:{ exists (Raise e2), u2. intros package.
      rewrite section_prepend, E1. cbn [prepend fst snd].
      rewrite section_prepend, E2. reflexivity. }
  destruct (section env auto_find_examples "**Objects**" full_name destdir
                    v "" u2) as [r3 u3] eqn:E3.
  exists (prepend (t1 ++ t2) r3), u3. intros package.
  rewrite section_prepend, E1. cbn [prepend fst snd].
  rewrite section_prepend, E2. cbn [prepend fst snd].
  rewrite section_prepend, E3. cbn [prepend fst snd].
  rewrite prepend_prepend.
  destruct r3 as [t3|e3]; [|reflexivity]. cbn [prepend ret].
  unfold ret, automodule_block, OPTIONS. cbn [fold_left].
  rewrite !append_assoc. reflexivity.
Qed.

End ListingFacts.

(** ** The page of a package *)

Section PackagePageFacts.

Variable env : pyenv.
Variable fs : filesystem.
Variable auto_find_examples : pyobj -> string -> string.

Variable root : string.
Variable master_package : option string.
Variables subroot destdir : string.

Local Abbreviation modules :=
  (package_modules env fs auto_find_examples root master_package subroot).

(** One turn of the loop over a module file that is not skipped. *)
Lemma package_modules_step (py_file : string) (rest : list string)
      (text : string) (w : world) (n : nat) :
  os.getsize fs (posixpath.join root py_file) = Ok n ->
  2 < n ->
  modules (py_file :: rest) destdir text w
  = bind (format_directive env auto_find_examples
                           (documented_module subroot py_file) destdir
                           master_package default_basename)
         (fun directive =>
            modules rest destdir
                    (text ++ module_heading py_file ++ directive ++ Str.nl))
         w.
Proof.
  intros Hsize Hn. cbn [package_modules].
  unfold bind at 1, lift, shall_skip. rewrite Hsize.
  replace (Nat.leb n 2) with false by (symmetry; apply Nat.leb_gt; lia).
  unfold documented_module, module_heading, bind.
  destruct (String.eqb py_file INITPY); cbn [andb];
    destruct (format_directive _ _ _ _ _ _ w) as [[directive|e] u];
    try reflexivity.
  f_equal. now rewrite append_assoc.
Qed.

(** One turn over a module file of at most two bytes. *)
Lemma package_modules_skip (py_file : string) (rest : list string)
      (text : string) (w : world) (n : nat) :
  os.getsize fs (posixpath.join root py_file) = Ok n ->
  n <= 2 ->
  modules (py_file :: rest) destdir text w = modules rest destdir text w.
Proof.
  intros Hsize Hn. cbn [package_modules].
  unfold bind at 1, lift, shall_skip. rewrite Hsize.
  replace (Nat.leb n 2) with true by (symmetry; apply Nat.leb_le; lia).
  reflexivity.
Qed.

Lemma package_modules_raise (py_file : string) (rest : list string)
      (text : string) (w : world) (e : exn) :
  os.getsize fs (posixpath.join root py_file) = Raise e ->
  modules (py_file :: rest) destdir text w = (Raise e, w).
Proof.
  intros Hsize. cbn [package_modules].
  unfold bind at 1, lift, shall_skip. now rewrite Hsize.
Qed.

Lemma package_modules_extends :
  forall (py_files : list string) (text text' : string) (w w1 : world),
    modules py_files destdir text w = (Ok text', w1) ->
    exists added, text' = text ++ added.
Proof.
  induction py_files as [|py_file rest IH]; intros text text' w w1 H.
  - injection H as <- <-. exists "". now rewrite append_nil_r.
  - destruct (os.getsize fs (posixpath.join root py_file)) as [n|e] eqn:Hsize.
    + destruct (Nat.le_gt_cases n 2) as [Hn|Hn].
      * rewrite (package_modules_skip _ _ _ _ _ Hsize Hn) in H. eauto.
      * rewrite (package_modules_step _ _ _ _ _ Hsize Hn) in H.
        unfold bind in H.
        destruct (format_directive _ _ _ _ _ _ w) as [[directive|e] u];
          [|discriminate].
        destruct (IH _ _ _ _ H) as (added & ->).
        eexists. rewrite append_assoc. reflexivity.
    + rewrite (package_modules_raise _ _ _ _ _ Hsize) in H. discriminate.
Qed.

(** Every module file of more than two bytes has its block in the
    text the loop returns. *)
Lemma package_modules_documents :
  forall (py_files : list string) (text text' : string) (w w1 : world)
         (py_file : string) (n : nat),
    modules py_files destdir text w = (Ok text', w1) ->
    In py_file py_files ->
    os.getsize fs (posixpath.join root py_file) = Ok n ->
    2 < n ->
    exists (before after directive : string) (u1 u2 : world),
      format_directive env auto_find_examples
                       (documented_module subroot py_file) destdir
                       master_package default_basename u1
      = (Ok directive, u2) /\
      text' = before ++ module_heading py_file ++ directive ++ Str.nl ++ after.
Proof.
  induction py_files as [|f rest IH];
    intros text text' w w1 py_file n H Hin Hsize Hn; [destruct Hin|].
  destruct (os.getsize fs (posixpath.join root f)) as [m|e] eqn:Hf.
  2:{ rewrite (package_modules_raise _ _ _ _ _ Hf) in H. discriminate. }
  destruct (Nat.le_gt_cases m 2) as [Hm|Hm].
  - rewrite (package_modules_skip _ _ _ _ _ Hf Hm) in H.
    destruct Hin as [->|Hin]; [|eauto].
    rewrite Hsize in Hf. injection Hf as ->. lia.
  - rewrite (package_modules_step _ _ _ _ _ Hf Hm) in H.
    unfold bind in H.
    destruct (format_directive _ _ _ _ _ _ w) as [[directive|e] u] eqn:Hd;
      [|discriminate].
    destruct Hin as [->|Hin]; [|eauto].
    destruct (package_modules_extends _ _ _ _ _ H) as (added & ->).
    exists text, added, directive, w, u. split; [exact Hd|].
    now rewrite !append_assoc.
Qed.

Lemma package_modules_without_skipped (before : list string)
      (py_file : string) (after : list string) (n : nat) :
  os.getsize fs (posixpath.join root py_file) = Ok n ->
  n <= 2 ->
  forall (text : string) (w : world),
    modules (before ++ py_file :: after)%list destdir text w
    = modules (before ++ after)%list destdir text w.
Proof.
  intros Hsize Hn.
  induction before as [|f before IH]; intros text w.
  - apply (package_modules_skip _ _ _ _ _ Hsize Hn).
  - cbn [app package_modules]. unfold bind.
    destruct (lift (shall_skip fs (posixpath.join root f)) w)
      as [[[|]|e] u]; [apply IH| |reflexivity].
    destruct (format_directive _ _ _ _ _ _ u) as [[directive|e] u'];
      [apply IH | reflexivity].
Qed.

End PackagePageFacts.

Lemma toctree_entries_extends (root : string) (master_package : option string)
      (subroot : string) (excludes : list string) :
  forall (subs : list string) (text : string),
  exists added,
    toctree_entries root master_package subroot subs excludes text
    = text ++ added.
Proof.
  induction subs as [|sub rest IH]; intros text; cbn [toctree_entries].
  - exists "". now rewrite append_nil_r.
  - destruct (negb (is_excluded (posixpath.join root sub) excludes)).
    + destruct (IH (text ++ "    " ++ makename master_package subroot ++ "."
                         ++ sub ++ Str.nl)) as (added & ->).
      eexists. rewrite append_assoc. reflexivity.
    + apply IH.
Qed.

(** What [create_package_file] does once the module loop has returned
    [text]: the page is written last and starts with [text]. *)
Lemma create_package_file_page
      (env : pyenv) (fs : filesystem)
      (auto_find_examples : pyobj -> string -> string)
      (root : string) (master_package : option string) (subroot : string)
      (py_files subs : list string) (destdir : string)
      (excludes : list string) (suffix : string) (w w1 : world) :
  create_package_file env fs auto_find_examples root master_package subroot
                      py_files subs destdir excludes suffix w = (Ok tt, w1) ->
  exists (text tail : string) (u : world),
    package_modules env fs auto_find_examples root master_package subroot
                    py_files destdir
                    (format_heading H1 (posixpath.split_tail root ++ " package"))
                    w = (Ok text, u) /\
    made_dirs w1 = made_dirs u /\
    written w1 = (written u
                    ++ [(page_file destdir master_package subroot suffix,
                         (text ++ tail)%string)])%list.
Proof.
  unfold create_package_file, bind. intros H.
  destruct (package_modules _ _ _ _ _ _ _ _ _ w) as [[text|e] u];
    [|discriminate].
  match type of H with
  | write_file ?n ?t ?d ?s u = _ =>
      destruct (write_file_written n t d s u) as (w2 & Hw & Hm & Hwr);
      assert (Ht : exists tail, t = text ++ tail)
  end.
  { destruct (filter _ subs) as [|sub subs'].
    - exists "". now rewrite append_nil_r.
    - match goal with
      | |- context [toctree_entries ?r ?m ?s ?l ?x ?t] =>
          destruct (toctree_entries_extends r m s x l t) as (added & ->)
      end.
      eexists. rewrite !append_assoc. reflexivity. }
  destruct Ht as (tail & Ht). rewrite Ht in *.
  rewrite Hw in H. injection H as <-.
  exists text, tail, u. split; [reflexivity|]. split; assumption.
Qed.

(** C10. The size test is applied to every module file of a package.
    A module file of at most two bytes leaves no trace: the run is the
    one in which the file is not listed at all, so the page has no
    heading and no automodule block for it and no stub is written for
    it.  A sibling of more than two bytes has its heading and its
    block on the page that is written. *)
Theorem create_package_file_skips_near_empty_modules :
  forall (env : pyenv) (fs : filesystem)
         (auto_find_examples : pyobj -> string -> string)
         (root : string) (master_package : option string)
         (subroot destdir : string) (subs excludes : list string)
         (suffix : string),
    (forall (before : list string) (py_file : string) (after : list string)
            (n : nat) (w : world),
        os.getsize fs (posixpath.join root py_file) = Ok n ->
        n <= 2 ->
        create_package_file env fs auto_find_examples root master_package
                            subroot (before ++ py_file :: after)%list subs
                            destdir excludes suffix w
        = create_package_file env fs auto_find_examples root master_package
                              subroot (before ++ after)%list subs
                              destdir excludes suffix w)
    /\
    (forall (py_files : list string) (py_file : string) (n : nat)
            (w w1 : world),
        create_package_file env fs auto_find_examples root master_package
                            subroot py_files subs destdir excludes suffix w
        = (Ok tt, w1) ->
        In py_file py_files ->
        os.getsize fs (posixpath.join root py_file) = Ok n ->
        2 < n ->
        exists (earlier : list (string * string))
               (before after directive : string) (u1 u2 : world),
          written w1
          = (earlier
               ++ [(page_file destdir master_package subroot suffix,
                    (before ++ module_heading py_file ++ directive ++ Str.nl
                            ++ after)%string)])%list /\
          format_directive env auto_find_examples
                           (documented_module subroot py_file) destdir
                           master_package default_basename u1
          = (Ok directive, u2)).
Proof.
  intros env fs afe root master_package subroot destdir subs excludes suffix.
  split.
  - intros before py_file after n w Hsize Hn.
    unfold create_package_file, bind.
    now rewrite (package_modules_without_skipped
                   env fs afe root master_package subroot destdir
                   before py_file after n Hsize Hn).
  - intros py_files py_file n w w1 H Hin Hsize Hn.
    destruct (create_package_file_page _ _ _ _ _ _ _ _ _ _ _ _ _ H)
      as (text & tail & u & Hloop & _ & Hwr).
    destruct (package_modules_documents
                env fs afe root master_package subroot destdir
                py_files _ _ _ _ py_file n Hloop Hin Hsize Hn)
      as (before & after & directive & u1 & u2 & Hd & ->).
    exists (written u), before, (after ++ tail), directive, u1, u2.
    split; [|exact Hd]. rewrite Hwr. do 3 f_equal.
    now rewrite !append_assoc.
Qed.

Lemma package_modules_agree
      (env1 env2 : pyenv) (fs : filesystem)
      (auto_find_examples : pyobj -> string -> string)
      (root : string) (master_package : option string)
      (subroot destdir : string) :
  loads_agree_under "brian2" env1 env2 ->
  forall (py_files : list string) (text : string) (w : world),
    package_modules env1 fs auto_find_examples root master_package subroot
                    py_files destdir text w
    = package_modules env2 fs auto_find_examples root master_package subroot
                      py_files destdir text w.
Proof.
  intros Hagree.
  induction py_files as [|py_file rest IH]; intros text w; [reflexivity|].
  cbn [package_modules]. unfold bind.
  destruct (lift (shall_skip fs (posixpath.join root py_file)) w)
    as [[[|]|e] u]; [apply IH| |reflexivity].
  rewrite (format_directive_agree env1 env2 auto_find_examples Hagree).
  destruct (format_directive env2 _ _ _ _ _ u) as [[directive|e] u'];
    [apply IH | reflexivity].
Qed.


(** ** TreeWalker *)

Lemma mem_insert (x y : string) (l : list string) :
  Str.mem x (Str.insert y l) = (String.eqb x y || Str.mem x l)%bool.
Proof.
  induction l as [|z l IH]; simpl; [reflexivity|].
  destruct (String.leb y z); simpl; [reflexivity|].
  rewrite IH. now destruct (String.eqb x y), (String.eqb x z).
Qed.

Lemma mem_sorted (x : string) (l : list string) :
  Str.mem x (Str.sorted l) = Str.mem x l.
Proof.
  induction l as [|y l IH]; simpl; [reflexivity|].
  now rewrite mem_insert, IH.
Qed.

Lemma mem_filter (x : string) (p : string -> bool) (l : list string) :
  Str.mem x (filter p l) = true -> Str.mem x l = true.
Proof.
  induction l as [|y l IH]; simpl; [trivial|].
  destruct (p y); simpl; intros H.
  - apply orb_true_iff in H. apply orb_true_iff. tauto.
  - apply orb_true_iff. auto.
Qed.

(** The marker is among the module files only if it is among the files. *)
Lemma module_files_marker (files exclude_files : list string) :
  Str.mem INITPY files = false ->
  Str.mem INITPY (module_files files exclude_files) = false.
Proof.
  intros H. unfold module_files. rewrite mem_sorted.
  destruct (Str.mem INITPY (filter _ files)) eqn:E; [|reflexivity].
  apply mem_filter in E. congruence.
Qed.

Lemma length_insert (x : string) (l : list string) :
  List.length (Str.insert x l) = S (List.length l).
Proof.
  induction l as [|y l IH]; simpl; [reflexivity|].
  destruct (String.leb x y); simpl; [reflexivity | now rewrite IH].
Qed.

Lemma length_remove_first (x : string) (l : list string) :
  Str.mem x l = true ->
  S (List.length (Str.remove_first x l)) = List.length l.
Proof.
  induction l as [|y l IH]; simpl; [discriminate|].
  rewrite (String.eqb_sym x y).
  destruct (String.eqb y x); simpl; [reflexivity|].
  intros H. now rewrite IH.
Qed.

Section TreeWalkerFacts.

Variable env : pyenv.
Variable fs : filesystem.
Variable auto_find_examples : pyobj -> string -> string.

Variable rootpath : string.
Variable root_package : option string.
Variables exclude_dirs exclude_files : list string.
Variable destdir : string.

Local Abbreviation body :=
  (visit env fs auto_find_examples rootpath root_package
         exclude_dirs exclude_files destdir).

(** A directory whose loop body hands back no subdirectory is where
    the walk of its subtree ends. *)
Lemma os_walk_pruned (root : string) (entries : list (string * node))
      (toplevels toplevels' : list string) (w w1 : world) :
  body root (os.dir_names entries) (os.file_names entries) toplevels w
  = (Ok ([], toplevels'), w1) ->
  os_walk body root (Dir entries) toplevels w = (Ok toplevels', w1).
Proof.
  intros H. cbn [os_walk]. erewrite bind_ok by exact H. reflexivity.
Qed.

Lemma os_walk_raise (root : string) (entries : list (string * node))
      (toplevels : list string) (w w1 : world) (e : exn) :
  body root (os.dir_names entries) (os.file_names entries) toplevels w
  = (Raise e, w1) ->
  os_walk body root (Dir entries) toplevels w = (Raise e, w1).
Proof.
  intros H. cbn [os_walk]. erewrite bind_raise by exact H. reflexivity.
Qed.

Lemma visit_excluded (root : string) (subs files toplevels : list string)
      (w : world) :
  is_excluded root exclude_dirs = true ->
  body root subs files toplevels w = (Ok ([], toplevels), w).
Proof. intros H. unfold visit. now rewrite H. Qed.

Lemma visit_non_package_below_root (root : string)
      (subs files toplevels : list string) (w : world) :
  root <> rootpath ->
  Str.mem INITPY files = false ->
  body root subs files toplevels w = (Ok ([], toplevels), w).
Proof.
  intros Hroot Hmarker. unfold visit.
  destruct (is_excluded root exclude_dirs); [reflexivity|].
  rewrite (module_files_marker _ _ Hmarker).
  apply String.eqb_neq in Hroot. rewrite Hroot. reflexivity.
Qed.

Lemma visit_non_package_root (subs subs' files toplevels : list string)
      (w : world) :
  is_excluded rootpath exclude_dirs = false ->
  Str.mem INITPY files = false ->
  visible_sorted subs = Ok subs' ->
  body rootpath subs files toplevels w
  = (Raise (AssertionError "Expected it to be a package"), w).
Proof.
  intros Hex Hmarker Hsubs. unfold visit.
  rewrite Hex, (module_files_marker _ _ Hmarker), String.eqb_refl.
  cbn [negb andb]. unfold bind, lift. rewrite Hsubs. reflexivity.
Qed.

Lemma visit_near_empty_package (root : string)
      (subs files toplevels : list string) (w : world) (n : nat) :
  is_excluded root exclude_dirs = false ->
  module_files files exclude_files = [INITPY] ->
  visible_sorted subs = Ok [] ->
  os.getsize fs (posixpath.join root INITPY) = Ok n ->
  n <= 2 ->
  body root subs files toplevels w = (Ok ([], toplevels), w).
Proof.
  intros Hex Hfiles Hsubs Hsize Hn. unfold visit.
  rewrite Hex, Hfiles. cbn -[posixpath.join]. unfold bind, lift.
  rewrite Hsubs. cbn -[posixpath.join]. unfold shall_skip. rewrite Hsize.
  replace (Nat.leb n 2) with true by (symmetry; apply Nat.leb_le; lia).
  reflexivity.
Qed.

Lemma visit_package_with_content (root : string)
      (subs subs' files toplevels : list string) (w : world) :
  is_excluded root exclude_dirs = false ->
  Str.mem INITPY (module_files files exclude_files) = true ->
  visible_sorted subs = Ok subs' ->
  subs' <> []
  \/ 1 < List.length (module_files files exclude_files)
  \/ (exists n, os.getsize fs (posixpath.join root INITPY) = Ok n /\ 2 < n) ->
  body root subs files toplevels w
  = bind (create_package_file env fs auto_find_examples root root_package
            (subpackage_of rootpath root)
            (INITPY :: Str.remove_first INITPY
                         (module_files files exclude_files))
            subs' destdir exclude_dirs "rst")
         (fun _ =>
            ret (subs',
                 (toplevels ++ [makename root_package
                                         (subpackage_of rootpath root)])%list))
         w.
Proof.
  intros Hex Hpkg Hsubs Hcontent. unfold visit.
  rewrite Hex, Hpkg. cbn [negb andb]. unfold bind at 1, lift. rewrite Hsubs.
  assert (Hlen : List.length (INITPY :: Str.remove_first INITPY
                                (module_files files exclude_files))
                 = List.length (module_files files exclude_files)).
  { cbn [List.length]. now apply length_remove_first. }
  rewrite Hlen.
  destruct subs' as [|sub subs']; [|reflexivity]. cbn [orb].
  destruct (Nat.ltb 1 (List.length (module_files files exclude_files))) eqn:E;
    [reflexivity|].
  destruct Hcontent as [H|[H|(n & Hsize & Hn)]].
  - now elim H.
  - apply Nat.ltb_lt in H. congruence.
  - unfold bind at 1, bind at 1, lift, shall_skip. rewrite Hsize.
    replace (Nat.leb n 2) with false by (symmetry; apply Nat.leb_gt; lia).
    reflexivity.
Qed.


(** C5. A directory other than the traversal root that does not
    contain the marker file [__init__.py] is pruned with its whole
    subtree: walking it, whatever it contains, files with the module
    suffix included, writes nothing, prints nothing and leaves the
    list of packages as it was, so neither the directory nor any
    descendant contributes a page or a stub.  "Other than the root" is
    the test of the code, a path different from the root path; it holds
    of every directory the walk enters below the root. *)
Theorem non_package_subtree_contributes_nothing :
  (forall (root : string) (entries : list (string * node))
          (toplevels : list string) (w : world),
      root <> rootpath ->
      Str.mem INITPY (os.file_names entries) = false ->
      os_walk body root (Dir entries) toplevels w = (Ok toplevels, w))
  /\
  (forall names : list string,
      names <> [] ->
      Forall entry_name names ->
      entered_path rootpath names <> rootpath).
Proof.
  split.
  - intros root entries toplevels w Hroot Hmarker.
    apply os_walk_pruned.
    now apply visit_non_package_below_root.
  - intros names Hne Hnames E.
    pose proof (entered_path_longer names Hnames rootpath) as Hlen.
    rewrite E in Hlen. destruct names; [now elim Hne | simpl in Hlen; lia].
Qed.

(** C6, as the code has it.  For a package directory the walk visits
    (marker among its module files, not excluded): with a marker of at
    most two bytes, no other module file to document and no visible
    subdirectory (none left once hidden and private ones are removed),
    nothing is written and the list of packages is unchanged; with a
    visible subdirectory, or more than one module file to document, or
    a marker of more than two bytes, the page is generated, and once it
    is (no load fails) the page is the file written last and the dotted
    name is appended to the list of packages. *)
Theorem package_is_skipped_or_emitted :
  forall (root : string) (subs files toplevels : list string) (w : world),
    is_excluded root exclude_dirs = false ->
    Str.mem INITPY (module_files files exclude_files) = true ->
    (forall n : nat,
        module_files files exclude_files = [INITPY] ->
        visible_sorted subs = Ok [] ->
        os.getsize fs (posixpath.join root INITPY) = Ok n ->
        n <= 2 ->
        body root subs files toplevels w = (Ok ([], toplevels), w))
    /\
    (forall (subs' : list string) (w1 : world),
        visible_sorted subs = Ok subs' ->
        subs' <> []
        \/ 1 < List.length (module_files files exclude_files)
        \/ (exists n, os.getsize fs (posixpath.join root INITPY) = Ok n
                      /\ 2 < n) ->
        create_package_file env fs auto_find_examples root root_package
          (subpackage_of rootpath root)
          (INITPY :: Str.remove_first INITPY
                       (module_files files exclude_files))
          subs' destdir exclude_dirs "rst" w = (Ok tt, w1) ->
        body root subs files toplevels w
        = (Ok (subs',
               (toplevels ++ [makename root_package
                                       (subpackage_of rootpath root)])%list),
           w1)
        /\ exists (earlier : list (string * string)) (page : string),
             written w1
             = (earlier
                  ++ [(page_file destdir root_package
                                 (subpackage_of rootpath root) "rst",
                       page)])%list).
Proof.
  intros root subs files toplevels w Hex Hpkg. split.
  - intros n Hfiles Hsubs Hsize Hn.
    now apply (visit_near_empty_package root subs files toplevels w n
                                        Hex Hfiles Hsubs Hsize).
  - intros subs' w1 Hsubs Hcontent Hpage. split.
    + rewrite (visit_package_with_content root subs subs' files toplevels w
                                          Hex Hpkg Hsubs Hcontent).
      erewrite bind_ok by exact Hpage. reflexivity.
    + destruct (create_package_file_page _ _ _ _ _ _ _ _ _ _ _ _ _ Hpage)
        as (text & tail & u & _ & _ & Hwr).
      now exists (written u), (text ++ tail).
Qed.

End TreeWalkerFacts.

(** ** The whole run *)

Lemma visible_sorted_total (subs : list string) :
  Forall (fun sub => sub <> "") subs ->
  exists subs', visible_sorted subs = Ok subs'.
Proof.
  intros H. unfold visible_sorted.
  assert (Hv : exists l, visible subs = Ok l).
  { induction H as [|sub subs Hsub _ (l & IH)]; [now exists []|].
    destruct sub as [|c sub]; [now elim Hsub|]. cbn [visible]. rewrite IH.
    destruct (_ || _)%bool; eauto. }
  destruct Hv as (l & ->). eauto.
Qed.

Section WholeRunFacts.

Variable env : pyenv.
Variable fs : filesystem.
Variable auto_find_examples : pyobj -> string -> string.

Local Abbreviation resolved rootpath := (resolved_root fs rootpath).

(** The package name [recurse_tree] derives from the listing of the root. *)
Local Abbreviation package_of rootpath entries :=
  (if Str.mem INITPY (map fst entries)
   then Some (List.last (Str.split posixpath.sep_char (resolved rootpath)) "")
   else None).

Lemma recurse_tree_missing_root (rootpath : string)
      (exclude_dirs exclude_files : list string) (destdir : string)
      (w : world) :
  os.lookup fs (resolved rootpath) = None ->
  recurse_tree env fs auto_find_examples rootpath exclude_dirs exclude_files
               destdir w
  = (Raise (FileNotFoundError (resolved rootpath)), w).
Proof.
  unfold resolved_root. intros H.
  unfold recurse_tree, bind, lift, os.listdir. now rewrite H.
Qed.

Lemma recurse_tree_file_root (rootpath : string)
      (exclude_dirs exclude_files : list string) (destdir : string)
      (w : world) (n : nat) :
  os.lookup fs (resolved rootpath) = Some (File n) ->
  recurse_tree env fs auto_find_examples rootpath exclude_dirs exclude_files
               destdir w
  = (Raise (NotADirectoryError (resolved rootpath)), w).
Proof.
  unfold resolved_root. intros H.
  unfold recurse_tree, bind, lift, os.listdir. now rewrite H.
Qed.

Lemma recurse_tree_directory_root (rootpath : string)
      (exclude_dirs exclude_files : list string) (destdir : string)
      (w : world) (entries : list (string * node)) :
  os.lookup fs (resolved rootpath) = Some (Dir entries) ->
  recurse_tree env fs auto_find_examples rootpath exclude_dirs exclude_files
               destdir w
  = os_walk (visit env fs auto_find_examples (resolved rootpath)
                   (package_of rootpath entries)
                   exclude_dirs exclude_files destdir)
            (resolved rootpath) (Dir entries) [] w.
Proof.
  unfold resolved_root. intros H.
  unfold recurse_tree, bind, lift, os.listdir. now rewrite H.
Qed.

Local Abbreviation ready destdir w := (prepared fs destdir w).

(** [main] makes sure of the destination, then runs [recurse_tree] on
    the normalized exclusions and drops the list it returns. *)
Lemma main_runs_recurse_tree (rootpath : string)
      (exclude_dirs exclude_files : list string) (destdir : string)
      (w : world) :
  main env fs auto_find_examples rootpath exclude_dirs exclude_files
       destdir w
  = match recurse_tree env fs auto_find_examples rootpath
                       (normalize_excludes rootpath exclude_dirs)
                       exclude_files destdir (ready destdir w) with
    | (Ok _, w1) => (Ok tt, w1)
    | (Raise e, w1) => (Raise e, w1)
    end.
Proof.
  unfold main, prepared, bind at 1.
  destruct (os.path_exists fs destdir || Str.mem destdir (made_dirs w))%bool.
  - unfold ret at 1, bind.
    now destruct (recurse_tree _ _ _ _ _ _ _ w) as [[l|e] w1].
  - unfold makedirs at 1, bind.
    now destruct (recurse_tree _ _ _ _ _ _ _ _) as [[l|e] w1].
Qed.

Lemma prepared_written (destdir : string) (w : world) :
  written (ready destdir w) = written w.
Proof. unfold prepared. now destruct (_ || _)%bool. Qed.

(** C8, as the code has it.  When the root is a directory that is not
    itself excluded and holds no marker file, the walk stops at the
    root entry with the assertion error [Expected it to be a package]:
    nothing is written and no package below the root is documented.
    (The names of the subdirectories are not empty, as the names of
    directory entries are: the loop reads their first character.) *)
Theorem plain_root_directory_is_refused :
  forall (rootpath : string) (exclude_dirs exclude_files : list string)
         (destdir : string) (entries : list (string * node)) (w : world),
    os.lookup fs (resolved rootpath) = Some (Dir entries) ->
    Str.mem INITPY (os.file_names entries) = false ->
    Forall (fun sub => sub <> "") (os.dir_names entries) ->
    is_excluded (resolved rootpath) exclude_dirs = false ->
    recurse_tree env fs auto_find_examples rootpath exclude_dirs exclude_files
                 destdir w
    = (Raise (AssertionError "Expected it to be a package"), w).
Proof.
  intros rootpath exclude_dirs exclude_files destdir entries w
         Hdir Hmarker Hnames Hex.
  rewrite (recurse_tree_directory_root _ _ _ _ _ _ Hdir).
  destruct (visible_sorted_total _ Hnames) as (subs' & Hsubs).
  apply os_walk_raise.
  now apply (visit_non_package_root env fs auto_find_examples _ _ _ _ _
                                    (os.dir_names entries) subs').
Qed.


End WholeRunFacts.

(** ** The properties at work on the example installation *)


Lemma find_shortest_import_unresolved_raises_witness :
  exists e, find_shortest_import Example.env "brian2.core" "helper" = Raise e.
Proof.
  apply (find_shortest_import_unresolved_raises
           Example.env "brian2.core" "helper").
  intros idx Hidx (m & o & Him & Hget & Ho).
  change (1 <= idx <= 2) in Hidx.
  assert (E : idx = 1 \/ idx = 2) by lia.
  destruct E as [E | E]; rewrite E in Him; vm_compute in Him;
    injection Him as <-; vm_compute in Hget.
  - discriminate Hget.
  - injection Hget as <-. discriminate Ho.
Defined.


Lemma format_directive_documents_owned_members_only_witness :
  exists (stubs : list (string * string))
         (classes functions variables : list (string * pyobj)),
    written (snd (format_directive Example.env Example.no_examples "core"
                                   "/out" (Some "brian2") default_basename
                                   Example.nothing))
    = (written Example.nothing ++ stubs)%list /\
    (forall file, In file stubs ->
       exists member obj,
         fst file = stub_file "/out" "brian2.core" member /\
         owned_public Example.env "brian2.core" member obj) /\
    fst (format_directive Example.env Example.no_examples "core" "/out"
                          (Some "brian2") default_basename Example.nothing)
    = Ok (automodule_block (Some "brian2") "core"
            ++ member_listing classes functions variables).
Proof.
  destruct (format_directive_documents_owned_members_only
              Example.env Example.no_examples "core" "/out" (Some "brian2")
              Example.nothing
              (snd (format_directive Example.env Example.no_examples
                      "core" "/out" (Some "brian2") default_basename
                      Example.nothing))
              (fst (format_directive Example.env Example.no_examples
                      "core" "/out" (Some "brian2") default_basename
                      Example.nothing)))
    as (stubs & Hw & Hown & Hok).
  - vm_compute. reflexivity.
  - destruct (Hok _ eq_refl) as (classes & functions & variables & Hd & _).
    exists stubs, classes, functions, variables.
    split; [exact Hw|]. split; [exact Hown|].
    rewrite <- Hd. reflexivity.
Defined.

Lemma non_package_subtree_contributes_nothing_witness :
  os_walk (visit Example.env Example.fs Example.no_examples "/src/brian2"
                 (Some "brian2") [] [] "/out")
          "/src/brian2/data" (Dir [("table.py", File 40)]) [] Example.nothing
  = (Ok [], Example.nothing)
  /\ entered_path "/src/brian2" ["data"] <> "/src/brian2".
Proof.
  split.
  - apply (proj1 (non_package_subtree_contributes_nothing
                    Example.env Example.fs Example.no_examples "/src/brian2"
                    (Some "brian2") [] [] "/out")).
    + discriminate.
    + reflexivity.
  - apply (proj2 (non_package_subtree_contributes_nothing
                    Example.env Example.fs Example.no_examples "/src/brian2"
                    (Some "brian2") [] [] "/out")).
    + discriminate.
    + repeat constructor. discriminate.
Defined.

Lemma package_is_skipped_or_emitted_witness :
  visit Example.env Example.fs Example.no_examples "/src/bare" (Some "bare")
        [] [] "/out" "/src/bare" [] ["__init__.py"] [] Example.nothing
  = (Ok ([], []), Example.nothing)
  /\
  visit Example.env Example.fs Example.no_examples "/src/brian2"
        (Some "brian2") [] [] "/out" "/src/brian2/units" []
        ["__init__.py"; "fundamentalunits.py"] [] Example.nothing
  = (Ok ([], ["brian2.units"]),
     snd (create_package_file Example.env Example.fs Example.no_examples
            "/src/brian2/units" (Some "brian2") "units"
            ["__init__.py"; "fundamentalunits.py"] [] "/out" [] "rst"
            Example.nothing)).
Proof.
  split.
  - apply (proj1 (package_is_skipped_or_emitted
                    Example.env Example.fs Example.no_examples "/src/bare"
                    (Some "bare") [] [] "/out" "/src/bare" []
                    ["__init__.py"] [] Example.nothing
                    eq_refl eq_refl) 0).
    + reflexivity.
    + reflexivity.
    + reflexivity.
    + lia.
  - apply (proj2 (package_is_skipped_or_emitted
                    Example.env Example.fs Example.no_examples
                    "/src/brian2" (Some "brian2") [] [] "/out"
                    "/src/brian2/units" []
                    ["__init__.py"; "fundamentalunits.py"] [] Example.nothing
                    eq_refl eq_refl) []).
    + reflexivity.
    + right. left. vm_compute. lia.
    + vm_compute. reflexivity.
Defined.


Lemma plain_root_directory_is_refused_witness :
  recurse_tree Example.env Example.fs Example.no_examples "/src/plain" [] []
               "/out" Example.nothing
  = (Raise (AssertionError "Expected it to be a package"), Example.nothing).
Proof.
  apply (plain_root_directory_is_refused
           Example.env Example.fs Example.no_examples "/src/plain" [] []
           "/out" [("pkg", Dir [("__init__.py", File 30)])] Example.nothing).
  - reflexivity.
  - reflexivity.
  - repeat constructor. discriminate.
  - reflexivity.
Defined.


Lemma create_package_file_skips_near_empty_modules_witness :
  create_package_file Example.env Example.fs Example.no_examples
                      "/src/brian2" (Some "brian2") ""
                      ["__init__.py"; "core.py"; "empty.py"; "util.py"]
                      ["units"] "/out" [] "rst" Example.nothing
  = create_package_file Example.env Example.fs Example.no_examples
                        "/src/brian2" (Some "brian2") ""
                        ["__init__.py"; "core.py"; "util.py"]
                        ["units"] "/out" [] "rst" Example.nothing
  /\
  exists (earlier : list (string * string)) (before after directive : string),
    written (snd (create_package_file
                    Example.env Example.fs Example.no_examples
                    "/src/brian2" (Some "brian2") ""
                    ["__init__.py"; "core.py"; "empty.py"; "util.py"]
                    ["units"] "/out" [] "rst" Example.nothing))
    = (earlier
         ++ [(page_file "/out" (Some "brian2") "" "rst",
              (before ++ module_heading "core.py" ++ directive ++ Str.nl
                      ++ after)%string)])%list.
Proof.
  split.
  - apply (proj1 (create_package_file_skips_near_empty_modules
                    Example.env Example.fs Example.no_examples "/src/brian2"
                    (Some "brian2") "" "/out" ["units"] [] "rst")
                 ["__init__.py"; "core.py"] "empty.py" ["util.py"] 1
                 Example.nothing).
    + reflexivity.
    + lia.
  - destruct (proj2 (create_package_file_skips_near_empty_modules
                       Example.env Example.fs Example.no_examples
                       "/src/brian2" (Some "brian2") "" "/out" ["units"] []
                       "rst")
                    ["__init__.py"; "core.py"; "empty.py"; "util.py"]
                    "core.py" 300 Example.nothing
                    (snd (create_package_file
                            Example.env Example.fs Example.no_examples
                            "/src/brian2" (Some "brian2") ""
                            ["__init__.py"; "core.py"; "empty.py"; "util.py"]
                            ["units"] "/out" [] "rst" Example.nothing)))
      as (earlier & before & after & directive & u1 & u2 & Hw & _).
    + vm_compute. reflexivity.
    + right. left. reflexivity.
    + reflexivity.
    + lia.
    + now exists earlier, before, after, directive.
Defined.

(** The example of the specification: [helper], imported into
    [brian2.core] from [brian2.util], is left out of the listing of
    [brian2.core] and gets no stub there. *)
Example imported_helper_is_not_documented :
  written (snd (format_directive Example.env Example.no_examples "core" "/out"
                                 (Some "brian2") default_basename
                                 Example.nothing))
  = [("/out/brian2.core.Network.rst",
      ".. currentmodule:: brian2.core" ++ Str.nl ++ Str.nl
        ++ format_heading H1 "Network class"
        ++ "(*Shortest import*: ``from brian2.core import Network)``"
        ++ Str.nl ++ Str.nl
        ++ ".. autoclass:: Network" ++ Str.nl ++ Str.nl)].
Proof. vm_compute. reflexivity. Qed.

(** A whole run on the example tree: the plain directory [data], the
    private package [_cython] and the one-byte module [empty.py] leave
    no trace, and [helper] is documented where it is defined only. *)
Example run_on_the_example_tree :
  fst (recurse_tree Example.env Example.fs Example.no_examples "brian2" []
                    [] "/out" Example.nothing)
  = Ok ["brian2"; "brian2.units"]
  /\
  map fst (written (snd (recurse_tree Example.env Example.fs
                                      Example.no_examples "brian2" [] []
                                      "/out" Example.nothing)))
  = [ "/out/brian2.core.Network.rst";
      "/out/brian2.util.helper.rst";
      "/out/brian2.rst";
      "/out/brian2.units.fundamentalunits.Quantity.rst";
      "/out/brian2.units.fundamentalunits.check_units.rst";
      "/out/brian2.units.rst" ].
Proof. split; vm_compute; reflexivity. Qed.

(** ** Where the code departs from the specification *)

(** Against C6 as stated: [/src/stub] has an empty marker, no other
    module file and no subpackage (its only subdirectory has no
    marker), yet its page is written and its name returned. *)
Lemma near_empty_package_with_plain_directory_is_emitted :
  os.getsize Example.fs "/src/stub/__init__.py" = Ok 0 /\
  os.listdir Example.fs "/src/stub" = Ok ["__init__.py"; "data"] /\
  os.isfile Example.fs "/src/stub/data/__init__.py" = false /\
  recurse_tree Example.env Example.fs Example.no_examples "/src/stub" [] []
               "/out" Example.nothing
  = (Ok ["stub"],
     mk_world [] [("/out/stub.rst", format_heading H1 "stub package")]
              ["Creating file /out/stub.rst."]).
Proof. repeat split. Qed.


(** Against C8 as stated: the plain directory [/src/plain] has no
    marker, but once it is excluded the walk ends without an error. *)
Lemma excluded_plain_root_is_not_refused :
  os.listdir Example.fs "/src/plain" = Ok ["pkg"] /\
  normalize_excludes "/src/plain" ["."] = ["/src/plain/"] /\
  recurse_tree Example.env Example.fs Example.no_examples "/src/plain"
               ["/src/plain/"] [] "/out" Example.nothing
  = (Ok [], Example.nothing).
Proof. repeat split. Qed.

(** * Further properties of the generator *)

(** ** Strings: splitting and joining *)

Lemma split_nonempty (c : ascii) (s : string) : Str.split c s <> [].
Proof.
  destruct s as [|a s]; simpl; [discriminate|].
  destruct (Ascii.eqb a c); [discriminate|].
  destruct (Str.split c s); discriminate.
Qed.

Lemma join_cons_char (c a : ascii) (h : string) (t : list string) :
  Str.join (String c "") (String a h :: t)
  = String a (Str.join (String c "") (h :: t)).
Proof. destruct t; reflexivity. Qed.

(** [sep.join(s.split(sep)) == s] *)
Lemma join_split (c : ascii) (s : string) :
  Str.join (String c "") (Str.split c s) = s.
Proof.
  induction s as [|a s IH]; [reflexivity|]. simpl.
  destruct (Ascii.eqb_spec a c) as [->|Hac].
  - pose proof (split_nonempty c s) as Hne.
    destruct (Str.split c s) as [|h t] eqn:E; [now elim Hne|].
    change (Str.join (String c "") ("" :: h :: t))
      with (String c (Str.join (String c "") (h :: t))).
    now rewrite IH.
  - pose proof (split_nonempty c s) as Hne.
    destruct (Str.split c s) as [|h t] eqn:E; [now elim Hne|].
    rewrite join_cons_char. now rewrite IH.
Qed.

Lemma seq_split (a n : nat) (before : list nat) (idx : nat) (after : list nat) :
  seq a n = (before ++ idx :: after)%list ->
  idx = a + List.length before /\ before = seq a (List.length before)
  /\ List.length before < n.
Proof.
  revert a n. induction before as [|b before IH]; intros a n H.
  - destruct n as [|n]; [discriminate|]. simpl in H. injection H as <- _.
    simpl. repeat split; lia.
  - destruct n as [|n]; [discriminate|]. simpl in H. injection H as <- H.
    destruct (IH _ _ H) as (-> & Hb & Hn). simpl.
    repeat split; [lia | now rewrite <- Hb | lia].
Qed.

(** ** ImportResolver: what a result means, and how the scan fails *)

Section ImportResolverMore.

Variable env : pyenv.

Lemma scan_prefixes_result (M X : string) (parts : list string) :
  forall (idxs : list nat) (p : string),
    scan_prefixes env M X parts idxs = Ok p ->
    exists before idx after,
      idxs = (before ++ idx :: after)%list /\
      p = Str.join "." (firstn idx parts) /\
      retrievable_from env M X p /\
      forall j, In j before ->
                ~ retrievable_from env M X (Str.join "." (firstn j parts)).
Proof.
  induction idxs as [|i idxs IH]; intros p H; [discriminate|].
  simpl in H.
  assert (Hnext : scan_prefixes env M X parts idxs = Ok p ->
                  ~ retrievable_from env M X (Str.join "." (firstn i parts)) ->
                  exists before idx after,
                    i :: idxs = (before ++ idx :: after)%list /\
                    p = Str.join "." (firstn idx parts) /\
                    retrievable_from env M X p /\
                    forall j, In j before ->
                      ~ retrievable_from env M X
                          (Str.join "." (firstn j parts))).
  { intros Hs Hi.
    destruct (IH p Hs) as (before & idx & after & -> & Hp & Hr & Hb).
    exists (i :: before), idx, after. repeat split; try assumption.
    intros j [<-|Hj]; [exact Hi | now apply Hb]. }
  destruct (py_import env (Str.join "." (firstn i parts)) [X]) as [m|e] eqn:Him.
  - destruct (getattr m X) as [o|] eqn:Hget.
    + destruct (option_string_eqb (obj_module o) (Some M)) eqn:E.
      * injection H as <-. apply option_string_eqb_eq in E.
        exists [], i, idxs. repeat split; [now exists m, o | intros j []].
      * apply Hnext; [exact H|]. intros (m' & o' & Him' & Hget' & Ho').
        rewrite Him in Him'. injection Him' as <-.
        rewrite Hget in Hget'. injection Hget' as <-.
        apply option_string_eqb_eq in Ho'. congruence.
    + apply Hnext; [exact H|]. intros (m' & o' & Him' & Hget' & _).
      rewrite Him in Him'. injection Him' as <-. congruence.
  - destruct (is_ImportError e); [|discriminate].
    apply Hnext; [exact H|]. intros (m' & o' & Him' & _). congruence.
Qed.

(** X1. A path returned by [find_shortest_import M X] is a dotted
    prefix of [M] from which fetching [X] yields an object whose true
    origin is [M], and no shorter prefix does. *)
Theorem find_shortest_import_sound_and_minimal :
  forall (M X p : string),
    find_shortest_import env M X = Ok p ->
    exists idx,
      1 <= idx <= List.length (Str.split "."%char M) /\
      p = dotted_prefix M idx /\
      retrievable_from env M X p /\
      forall j, 1 <= j < idx ->
                ~ retrievable_from env M X (dotted_prefix M j).
Proof.
  intros M X p H. unfold find_shortest_import in H.
  destruct (scan_prefixes_result _ _ _ _ _ H)
    as (before & idx & after & Hseq & Hp & Hr & Hb).
  destruct (seq_split _ _ _ _ _ Hseq) as (Hidx & Hbefore & Hlen).
  exists idx. split; [lia|]. split; [exact Hp|]. split; [exact Hr|].
  intros j Hj. apply Hb. rewrite Hbefore. apply in_seq. lia.
Qed.

Lemma scan_prefixes_all_absent (M X : string) (parts : list string) :
  forall idxs : list nat,
    (forall j, In j idxs ->
               absent_from env M X (Str.join "." (firstn j parts))) ->
    scan_prefixes env M X parts idxs
    = Raise (AssertionError ("Couldn't import " ++ M ++ "." ++ X)).
Proof.
  induction idxs as [|i idxs IH]; intros Habs; [reflexivity|]. simpl.
  assert (Hi := Habs i (or_introl eq_refl)). unfold absent_from in Hi.
  assert (Hrest := IH (fun j Hj => Habs j (or_intror Hj))).
  destruct (py_import env (Str.join "." (firstn i parts)) [X]) as [m|e].
  - destruct (getattr m X) as [o|]; [|exact Hrest].
    destruct (option_string_eqb (obj_module o) (Some M)) eqn:E; [|exact Hrest].
    apply option_string_eqb_eq in E. now elim Hi.
  - now rewrite Hi.
Qed.

(** X2. When every dotted prefix of [M], the full path included, loads
    or is reported missing by an [ImportError] and none yields an
    object of true origin [M], the error raised is the assertion error
    whose message names [M.X]. *)
Theorem find_shortest_import_assertion_message :
  forall (M X : string),
    (forall idx, 1 <= idx <= List.length (Str.split "."%char M) ->
                 absent_from env M X (dotted_prefix M idx)) ->
    find_shortest_import env M X
    = Raise (AssertionError ("Couldn't import " ++ M ++ "." ++ X)).
Proof.
  intros M X Habs. unfold find_shortest_import.
  apply scan_prefixes_all_absent. intros j Hj. apply in_seq in Hj.
  apply Habs. lia.
Qed.

(** X3. Only [ImportError] is absorbed by the scan: when the load of
    the prefix of depth [k] fails with any other exception, the
    shallower prefixes having passed quietly, that exception is the
    outcome, even if a deeper prefix would have resolved the symbol. *)
Theorem find_shortest_import_load_failure_propagates :
  forall (M X : string) (k : nat) (e : exn),
    1 <= k <= List.length (Str.split "."%char M) ->
    (forall j, 1 <= j < k -> absent_from env M X (dotted_prefix M j)) ->
    py_import env (dotted_prefix M k) [X] = Raise e ->
    is_ImportError e = false ->
    find_shortest_import env M X = Raise e.
Proof.
  intros M X k e Hk Habs Hload He. unfold find_shortest_import.
  set (d := List.length (Str.split "."%char M)) in *.
  replace (seq 1 d) with (seq 1 (k - 1) ++ k :: seq (S k) (d - k))%list.
  - apply scan_prefixes_load_failure; try assumption.
    intros j Hj. apply in_seq in Hj. apply Habs. lia.
  - replace (seq 1 d) with (seq 1 ((k - 1) + S (d - k))) by (f_equal; lia).
    rewrite seq_app. simpl. do 3 f_equal; lia.
Qed.

(** X4. A symbol no ancestor package re-exports is imported from its
    own module: when the full path [M] yields the object and every
    proper prefix passes quietly without it, the result is [M] itself. *)
Theorem find_shortest_import_own_module :
  forall (M X : string),
    retrievable_from env M X M ->
    (forall j, 1 <= j < List.length (Str.split "."%char M) ->
               absent_from env M X (dotted_prefix M j)) ->
    find_shortest_import env M X = Ok M.
Proof.
  intros M X Hr Habs. unfold find_shortest_import.
  set (parts := Str.split "."%char M).
  assert (Hfull : Str.join "." (firstn (List.length parts) parts) = M).
  { rewrite firstn_all. apply (join_split "."%char). }
  pose proof (split_nonempty "."%char M) as Hne. fold parts in Hne.
  destruct (List.length parts) as [|n] eqn:Hlen;
    [destruct parts; [now elim Hne | discriminate]|].
  replace (seq 1 (S n)) with (seq 1 n ++ [S n])%list
    by (rewrite seq_S; reflexivity).
  transitivity (@Ok string (Str.join "." (firstn (S n) parts)));
    [|now rewrite Hfull].
  apply scan_prefixes_first_hit.
  - intros j Hj. apply in_seq in Hj. apply Habs.
    change (1 <= j < List.length parts). rewrite Hlen. lia.
  - now rewrite Hfull.
Qed.

End ImportResolverMore.

(** ** Names and headings *)

Lemma truthy_app (a b : string) : truthy a = true -> truthy (a ++ b) = true.
Proof. now destruct a. Qed.

(** X5. Joining dotted names is associative, the empty name and [None]
    being neutral: the name under which a module is documented, the
    package name joined with (the package path joined with the stem),
    is the name of the package page joined with the stem. *)
Theorem makename_assoc :
  forall (package : option string) (subroot module : string),
    makename (Some (makename package subroot)) module
    = makename package (makename (Some subroot) module).
Proof.
  intros [p|] b c; [|reflexivity].
  unfold makename.
  destruct (truthy p) eqn:Hp; [|reflexivity].
  destruct (truthy b) eqn:Hb.
  - rewrite (truthy_app p ("." ++ b) Hp).
    destruct (truthy c) eqn:Hc.
    + rewrite (truthy_app b ("." ++ c) Hb). now rewrite !append_assoc.
    + now rewrite Hb.
  - rewrite Hp. destruct (truthy c) eqn:Hc; now rewrite ?Hc, ?Hp.
Qed.

Lemma length_repeat (c : ascii) (n : nat) : String.length (Str.repeat c n) = n.
Proof. induction n as [|n IH]; simpl; [reflexivity | now rewrite IH]. Qed.

Lemma get_repeat (c : ascii) (n i : nat) :
  i < n -> String.get i (Str.repeat c n) = Some c.
Proof.
  revert i. induction n as [|n IH]; intros i Hi; [lia|].
  destruct i as [|i]; simpl; [reflexivity | apply IH; lia].
Qed.

(** X6. A heading is the title, a line break, an underline and two line
    breaks, where the underline is exactly as long as the title and
    made of the character of the level only; the three levels have
    three different characters. *)
Theorem format_heading_underline :
  forall (level : heading_level) (text : string),
    (exists underline,
        format_heading level text
        = text ++ Str.nl ++ underline ++ Str.nl ++ Str.nl /\
        String.length underline = String.length text /\
        forall i, i < String.length text ->
                  String.get i underline = Some (underline_char level))
    /\ forall level', underline_char level = underline_char level' ->
                      level = level'.
Proof.
  intros level text. split.
  - exists (Str.repeat (underline_char level) (String.length text)).
    split; [reflexivity|]. split; [apply length_repeat|].
    intros i Hi. now apply get_repeat.
  - intros level' H. destruct level, level'; try reflexivity; discriminate H.
Qed.

(** ** ExclusionMatcher: separators, rule lists and subtrees *)

Lemma rev_acc_app (s acc : string) : Str.rev_acc s acc = Str.rev s ++ acc.
Proof.
  unfold Str.rev. revert acc.
  induction s as [|c s IH]; intros acc; simpl; [reflexivity|].
  rewrite IH, (IH (String c "")), append_assoc. reflexivity.
Qed.

Lemma rev_app (a b : string) : Str.rev (a ++ b) = Str.rev b ++ Str.rev a.
Proof.
  induction a as [|c a IH]; simpl.
  - now rewrite append_nil_r.
  - unfold Str.rev in *. simpl.
    rewrite (rev_acc_app (a ++ b)), (rev_acc_app a).
    unfold Str.rev. rewrite IH, append_assoc. reflexivity.
Qed.

(** [(a + p).endswith(p)] *)
Lemma endswith_app (a p : string) : Str.endswith (a ++ p) p = true.
Proof. unfold Str.endswith. rewrite rev_app. apply startswith_app. Qed.

Lemma prefix_app_r (p s t : string) :
  String.prefix p s = true -> String.prefix p (s ++ t) = true.
Proof.
  revert s. induction p as [|a p IH]; intros s H; [apply prefix_nil|].
  destruct s as [|b s]; [discriminate|]. cbn -[ascii_dec] in *.
  destruct (ascii_dec a b); [now apply IH | discriminate].
Qed.

Lemma with_trailing_sep_ends (C : string) :
  Str.endswith (with_trailing_sep C) posixpath.sep = true.
Proof.
  unfold with_trailing_sep.
  destruct (Str.endswith C posixpath.sep) eqn:E; [exact E | apply endswith_app].
Qed.

Lemma join_entry (root name : string) :
  root <> "" -> entry_name name ->
  posixpath.join root name = with_trailing_sep root ++ name.
Proof.
  intros Hroot [_ Hname]. unfold posixpath.join, with_trailing_sep.
  rewrite Hname. apply String.eqb_neq in Hroot. rewrite Hroot. cbn [orb].
  destruct (Str.endswith root posixpath.sep); [reflexivity|].
  now rewrite append_assoc.
Qed.

Lemma join_nonempty (root name : string) :
  root <> "" -> entry_name name -> posixpath.join root name <> "".
Proof.
  intros Hroot Hname E.
  pose proof (join_longer root name Hname) as Hlen. rewrite E in Hlen.
  simpl in Hlen. lia.
Qed.

Lemma entered_path_nonempty (names : list string) :
  Forall entry_name names ->
  forall root, root <> "" -> entered_path root names <> "".
Proof.
  unfold entered_path.
  induction 1 as [|name names Hname _ IH]; intros root Hroot; [exact Hroot|].
  simpl. apply IH. now apply join_nonempty.
Qed.

Lemma is_excluded_child (root name : string) (rules : list string) :
  root <> "" -> entry_name name ->
  is_excluded root rules = true ->
  is_excluded (posixpath.join root name) rules = true.
Proof.
  intros Hroot Hname Hex.
  apply is_excluded_spec in Hex. destruct Hex as (rule & Hin & Hs).
  apply is_excluded_spec. exists rule. split; [exact Hin|].
  rewrite (join_entry root name Hroot Hname).
  unfold Str.startswith in *. unfold with_trailing_sep at 1.
  destruct (Str.endswith _ posixpath.sep).
  - now apply prefix_app_r.
  - rewrite append_assoc. now apply prefix_app_r.
Qed.

Lemma is_excluded_entered_path (rules names : list string) :
  Forall entry_name names ->
  forall root,
    root <> "" ->
    is_excluded root rules = true ->
    is_excluded (entered_path root names) rules = true.
Proof.
  unfold entered_path.
  induction 1 as [|name names Hname _ IH]; intros root Hroot Hex;
    [exact Hex|].
  simpl. apply IH; [now apply join_nonempty | now apply is_excluded_child].
Qed.

(** X7. Exclusion covers the whole subtree: when a directory is
    excluded, so is every path the walk would build below it, however
    deep, so that pruning at the excluded directory loses nothing that
    a test further down would have kept. *)
Theorem is_excluded_below :
  forall (root : string) (rules names : list string),
    root <> "" ->
    Forall entry_name names ->
    is_excluded root rules = true ->
    is_excluded (entered_path root names) rules = true.
Proof.
  intros root rules names Hroot Hnames Hex.
  now apply is_excluded_entered_path.
Qed.

(** X8. The verdict does not depend on whether the candidate is
    written with a trailing separator. *)
Theorem is_excluded_trailing_separator :
  forall (root : string) (rules : list string),
    Str.endswith root posixpath.sep = false ->
    is_excluded (root ++ posixpath.sep) rules = is_excluded root rules.
Proof.
  intros root rules H. unfold is_excluded. now rewrite endswith_app, H.
Qed.

(** X9. A directory is excluded by two lists of rules put together
    exactly when one of the two excludes it. *)
Theorem is_excluded_app :
  forall (root : string) (rules1 rules2 : list string),
    is_excluded root (rules1 ++ rules2)%list
    = (is_excluded root rules1 || is_excluded root rules2)%bool.
Proof.
  intros root rules1 rules2. unfold is_excluded.
  induction rules1 as [|r rules1 IH]; simpl; [reflexivity|].
  destruct (Str.startswith _ r); [reflexivity | exact IH].
Qed.

Lemma normpath_nonempty (path : string) : posixpath.normpath path <> "".
Proof.
  unfold posixpath.normpath.
  destruct (String.eqb path ""); [discriminate|].
  match goal with
  | |- (if String.eqb ?p "" then _ else _) <> _ =>
      destruct (String.eqb_spec p ""); [discriminate | assumption]
  end.
Qed.

(** X10. What [normalize_excludes] makes of an exclusion: a rule that
    ends with the separator; and, unless the canonical path itself ends
    with a separator (as the file system root does), the rule excludes
    the directory it names and every path below it. *)
Theorem normalized_rule_covers_its_directory :
  forall (root raw : string),
    Forall (fun rule => Str.endswith rule posixpath.sep = true)
           (normalize_excludes root [raw])
    /\
    forall names : list string,
      Str.endswith (excluded_directory root raw) posixpath.sep = false ->
      Forall entry_name names ->
      is_excluded (entered_path (excluded_directory root raw) names)
                  (normalize_excludes root [raw]) = true.
Proof.
  intros root raw. rewrite normalize_excludes_rules. simpl. split.
  - constructor; [|constructor]. apply endswith_app.
  - intros names Hend Hnames.
    assert (Hself : is_excluded (excluded_directory root raw)
                                [normalized_rule root raw] = true).
    { apply is_excluded_spec. exists (normalized_rule root raw).
      split; [now left|]. unfold with_trailing_sep. rewrite Hend.
      unfold normalized_rule, Str.startswith.
      rewrite <- (append_nil_r (excluded_directory root raw ++ posixpath.sep))
        at 2.
      apply startswith_app. }
    apply is_excluded_entered_path; [exact Hnames| |exact Hself].
    apply normpath_nonempty.
Qed.

(** ** Sorted listings *)

Lemma ascii_compare_lt_trans (a b c : ascii) :
  Ascii.compare a b = Lt -> Ascii.compare b c = Lt -> Ascii.compare a c = Lt.
Proof.
  unfold Ascii.compare. rewrite !N.compare_lt_iff. apply N.lt_trans.
Qed.

Lemma string_compare_le_trans (s t u : string) :
  String.compare s t <> Gt -> String.compare t u <> Gt ->
  String.compare s u <> Gt.
Proof.
  revert t u. induction s as [|a s IH]; intros [|b t] [|c u]; simpl;
    try congruence.
  destruct (Ascii.compare a b) eqn:Eab; try congruence;
    destruct (Ascii.compare b c) eqn:Ebc; try congruence; intros H1 H2.
  - apply Ascii.compare_eq_iff in Eab, Ebc. subst.
    replace (Ascii.compare c c) with Eq; [now apply (IH t)|].
    symmetry. unfold Ascii.compare. apply N.compare_refl.
  - apply Ascii.compare_eq_iff in Eab. subst. now rewrite Ebc.
  - apply Ascii.compare_eq_iff in Ebc. subst. now rewrite Eab.
  - now rewrite (ascii_compare_lt_trans _ _ _ Eab Ebc).
Qed.

Lemma str_le_trans (s t u : string) : str_le s t -> str_le t u -> str_le s u.
Proof.
  unfold str_le, String.leb. intros H1 H2.
  assert (H : String.compare s u <> Gt).
  { apply (string_compare_le_trans s t u).
    - destruct (String.compare s t); congruence.
    - destruct (String.compare t u); congruence. }
  destruct (String.compare s u); congruence.
Qed.

Lemma insert_perm (x : string) (l : list string) :
  Permutation (x :: l) (Str.insert x l).
Proof.
  induction l as [|y l IH]; simpl; [reflexivity|].
  destruct (String.leb x y); [reflexivity|].
  rewrite perm_swap. now apply perm_skip.
Qed.

Lemma sorted_perm (l : list string) : Permutation l (Str.sorted l).
Proof.
  induction l as [|x l IH]; simpl; [reflexivity|].
  rewrite <- insert_perm. now apply perm_skip.
Qed.

Lemma insert_sorted (x : string) (l : list string) :
  StronglySorted str_le l -> StronglySorted str_le (Str.insert x l).
Proof.
  induction 1 as [|y l Hl IH Hy]; simpl.
  - constructor; constructor.
  - destruct (String.leb x y) eqn:E.
    + constructor; [now constructor|]. constructor; [exact E|].
      eapply Forall_impl; [|exact Hy]. intros z Hz.
      now apply (str_le_trans x y z).
    + constructor; [exact IH|].
      apply (Permutation_Forall (insert_perm x l)).
      constructor; [|exact Hy].
      destruct (String.leb_total x y) as [H|H]; [congruence | exact H].
Qed.

Lemma sorted_sorted (l : list string) : StronglySorted str_le (Str.sorted l).
Proof.
  induction l as [|x l IH]; simpl; [constructor | now apply insert_sorted].
Qed.

Lemma mem_In (x : string) (l : list string) : Str.mem x l = true <-> In x l.
Proof.
  unfold Str.mem. rewrite existsb_exists. split.
  - intros (y & Hy & E). apply String.eqb_eq in E. now subst.
  - intros H. exists x. split; [exact H | apply String.eqb_refl].
Qed.

Lemma remove_first_perm (x : string) (l : list string) :
  In x l -> Permutation l (x :: Str.remove_first x l).
Proof.
  induction l as [|y l IH]; intros H; [destruct H|]. simpl.
  destruct (String.eqb_spec y x) as [->|Hyx]; [reflexivity|].
  destruct H as [H|H]; [congruence|].
  rewrite perm_swap. apply perm_skip. now apply IH.
Qed.

Lemma remove_first_incl (x : string) (l : list string) :
  forall z, In z (Str.remove_first x l) -> In z l.
Proof.
  induction l as [|y l IH]; intros z H; [destruct H|]. simpl in H.
  destruct (String.eqb y x); [now right|].
  destruct H as [<-|H]; [now left | right; now apply IH].
Qed.

Lemma remove_first_sorted (x : string) (l : list string) :
  StronglySorted str_le l -> StronglySorted str_le (Str.remove_first x l).
Proof.
  induction 1 as [|y l Hl IH Hy]; simpl; [constructor|].
  destruct (String.eqb y x); [exact Hl|].
  constructor; [exact IH|].
  apply Forall_forall. intros z Hz.
  apply (proj1 (Forall_forall _ _) Hy). now apply (remove_first_incl x).
Qed.

Lemma substring_drop (n : nat) (p : string) :
  String.substring 0 n p ++ Str.drop n p = p.
Proof.
  revert p. induction n as [|n IH]; intros [|c p]; simpl; try reflexivity.
  now rewrite IH.
Qed.

(** [splitext(p)[0] + splitext(p)[1] == p] *)
Lemma splitext_round_trip (p : string) :
  fst (posixpath.splitext p) ++ snd (posixpath.splitext p) = p.
Proof.
  unfold posixpath.splitext.
  destruct (_ && _)%bool; simpl; [apply substring_drop | apply append_nil_r].
Qed.

(** X11. The module files of a directory are its files that bear the
    module suffix and are not blacklisted, each as often as it is
    listed, in sorted order; each of them is its stem followed by the
    suffix [.py]. *)
Theorem module_files_sorted_selection :
  forall (files exclude_files : list string),
    Permutation (filter (is_module_file exclude_files) files)
                (module_files files exclude_files)
    /\ StronglySorted str_le (module_files files exclude_files)
    /\ Forall (fun f => f = fst (posixpath.splitext f) ++ ".py"
                        /\ ~ In f exclude_files)
              (module_files files exclude_files).
Proof.
  intros files exclude_files. unfold module_files.
  split; [apply sorted_perm|]. split; [apply sorted_sorted|].
  apply (Permutation_Forall (sorted_perm _)).
  apply Forall_forall. intros f Hf. apply filter_In in Hf.
  destruct Hf as [_ Hf]. apply andb_true_iff in Hf. destruct Hf as [Hext Hex].
  apply String.eqb_eq in Hext. split.
  - rewrite <- Hext. symmetry. apply splitext_round_trip.
  - apply negb_true_iff in Hex. intros Hin. apply mem_In in Hin. congruence.
Qed.

(** X12. In a package the module files are handed on with the marker
    file first and the others behind it in sorted order, none lost and
    none added. *)
Theorem package_files_marker_first :
  forall (files exclude_files : list string),
    Str.mem INITPY (module_files files exclude_files) = true ->
    Permutation (module_files files exclude_files)
                (INITPY :: Str.remove_first INITPY
                             (module_files files exclude_files))
    /\ StronglySorted str_le
         (Str.remove_first INITPY (module_files files exclude_files)).
Proof.
  intros files exclude_files H. split.
  - apply remove_first_perm. now apply mem_In.
  - apply remove_first_sorted. unfold module_files. apply sorted_sorted.
Qed.

Lemma visible_ok (subs l : list string) :
  visible subs = Ok l ->
  l = filter (fun sub => negb (hidden_or_private sub)) subs /\ ~ In "" subs.
Proof.
  revert l. induction subs as [|sub subs IH]; intros l H.
  - injection H as <-. split; [reflexivity | intros []].
  - destruct sub as [|c sub]; [discriminate|]. cbn [visible] in H.
    destruct (visible subs) as [l'|e]; [|discriminate].
    destruct (IH l' eq_refl) as [-> Hne]. cbn [filter hidden_or_private].
    destruct (_ || _)%bool; injection H as <-;
      (split; [reflexivity | intros [E|E]; [discriminate | now apply Hne]]).
Qed.

Lemma visible_raise (subs : list string) (e : exn) :
  visible subs = Raise e ->
  In "" subs /\ e = IndexError "string index out of range".
Proof.
  induction subs as [|sub subs IH]; intros H; [discriminate|].
  destruct sub as [|c sub].
  - injection H as <-. split; [now left | reflexivity].
  - cbn [visible] in H. destruct (visible subs) as [l'|e'].
    + destruct (_ || _)%bool; discriminate.
    + injection H as <-. destruct (IH eq_refl) as [Hin He].
      split; [now right | exact He].
Qed.

(** X13. The subdirectories left for the walk are those whose name
    starts neither with a dot nor with an underscore, in sorted order;
    the selection fails, with an [IndexError], exactly when a name is
    empty. *)
Theorem visible_sorted_selection :
  forall subs : list string,
    (forall l, visible_sorted subs = Ok l ->
               Permutation (filter (fun sub => negb (hidden_or_private sub))
                                   subs) l
               /\ StronglySorted str_le l
               /\ ~ In "" subs)
    /\
    (forall e, visible_sorted subs = Raise e ->
               In "" subs /\ e = IndexError "string index out of range").
Proof.
  intros subs. unfold visible_sorted. split.
  - intros l H. destruct (visible subs) as [l'|e] eqn:E; [|discriminate].
    injection H as <-. destruct (visible_ok _ _ E) as [-> Hne].
    split; [apply sorted_perm|]. split; [apply sorted_sorted | exact Hne].
  - intros e H. destruct (visible subs) as [l'|e'] eqn:E; [discriminate|].
    injection H as <-. now apply (visible_raise subs).
Qed.

(** ** TreeWalker: one iteration, and the dotted name of a directory *)

Section VisitFacts.

Variable env : pyenv.
Variable fs : filesystem.
Variable auto_find_examples : pyobj -> string -> string.
Variable rootpath : string.
Variable root_package : option string.
Variables exclude_dirs exclude_files : list string.
Variable destdir : string.

Local Abbreviation body :=
  (visit env fs auto_find_examples rootpath root_package
         exclude_dirs exclude_files destdir).

(** The ways an iteration can end well: the directory is pruned; or it
    is kept and passed over; or it is kept and its page is generated. *)
Lemma visit_ok_cases (root : string) (subs files toplevels : list string)
      (w : world) (subs' toplevels' : list string) (w' : world) :
  body root subs files toplevels w = (Ok (subs', toplevels'), w') ->
  (subs' = [] /\ toplevels' = toplevels /\ w' = w)
  \/ (visible_sorted subs = Ok subs' /\ toplevels' = toplevels /\ w' = w)
  \/ (visible_sorted subs = Ok subs'
      /\ toplevels'
         = (toplevels ++ [makename root_package
                                   (subpackage_of rootpath root)])%list
      /\ create_package_file env fs auto_find_examples root root_package
           (subpackage_of rootpath root)
           (INITPY :: Str.remove_first INITPY
                        (module_files files exclude_files))
           subs' destdir exclude_dirs "rst" w = (Ok tt, w')).
Proof.
  unfold visit. intros H.
  destruct (is_excluded root exclude_dirs).
  { injection H as <- <- <-. now left. }
  destruct (Str.mem INITPY (module_files files exclude_files)) eqn:Hpkg.
  - unfold bind at 1, lift in H.
    destruct (visible_sorted subs) as [l|e]; [|discriminate].
    unfold bind at 1 in H.
    match type of H with
    | match ?c w with _ => _ end = _ => destruct (c w) as [[[|]|e] u] eqn:Hc
    end; [| |discriminate].
    + assert (u = w) as ->.
      { destruct (_ || _)%bool in Hc; [now injection Hc|].
        unfold bind, lift in Hc.
        destruct (shall_skip fs _); [now injection Hc | discriminate]. }
      unfold bind in H.
      destruct (create_package_file _ _ _ _ _ _ _ _ _ _ _ w)
        as [[[]|e] u] eqn:Hp; [|discriminate].
      injection H as <- <- <-. right. right. repeat split. exact Hp.
    + assert (u = w) as ->.
      { destruct (_ || _)%bool in Hc; [now injection Hc|].
        unfold bind, lift in Hc.
        destruct (shall_skip fs _); [now injection Hc | discriminate]. }
      injection H as <- <- <-. right. left. repeat split.
  - destruct (negb (String.eqb root rootpath)).
    + injection H as <- <- <-. now left.
    + unfold bind, lift in H.
      destruct (visible_sorted subs) as [l|e]; discriminate.
Qed.

(** X14. What one iteration of the walk hands on: only subdirectories
    it was given, none of them hidden or private, so the walk never
    descends into a directory whose name starts with a dot or an
    underscore; and the list of packages as it was, or with the dotted
    name of the directory added at its end. *)
Theorem visit_hands_on :
  forall (root : string) (subs files toplevels : list string) (w : world)
         (subs' toplevels' : list string) (w' : world),
    body root subs files toplevels w = (Ok (subs', toplevels'), w') ->
    (forall sub, In sub subs' ->
                 In sub subs /\ hidden_or_private sub = false)
    /\ (toplevels' = toplevels
        \/ toplevels'
           = (toplevels ++ [makename root_package
                                     (subpackage_of rootpath root)])%list).
Proof.
  intros root subs files toplevels w subs' toplevels' w' H.
  assert (Hvis : visible_sorted subs = Ok subs' ->
                 forall sub, In sub subs' ->
                   In sub subs /\ hidden_or_private sub = false).
  { unfold visible_sorted. intros Hv sub Hin.
    destruct (visible subs) as [l|e] eqn:E; [|discriminate].
    injection Hv as <-. destruct (visible_ok _ _ E) as [-> _].
    apply (Permutation_in _ (Permutation_sym (sorted_perm _))) in Hin.
    apply filter_In in Hin. destruct Hin as [Hin Hh].
    split; [exact Hin | now apply negb_true_iff]. }
  destruct (visit_ok_cases _ _ _ _ _ _ _ _ H)
    as [(-> & -> & _)|[(Hv & -> & _)|(Hv & -> & _)]].
  - split; [intros sub []|now left].
  - split; [now apply Hvis|now left].
  - split; [now apply Hvis|now right].
Qed.

End VisitFacts.

Lemma drop_app (a b : string) : Str.drop (String.length a) (a ++ b) = b.
Proof. induction a as [|c a IH]; [now destruct b | exact IH]. Qed.

Lemma replace_app (c d : ascii) (a b : string) :
  Str.replace c d (a ++ b) = Str.replace c d a ++ Str.replace c d b.
Proof. induction a as [|x a IH]; simpl; [reflexivity | now rewrite IH]. Qed.

Lemma replace_free (c d : ascii) (s : string) :
  free_of c s = true -> Str.replace c d s = s.
Proof.
  induction s as [|a s IH]; simpl; [reflexivity|]. intros H.
  apply andb_true_iff in H. destruct H as [Ha Hs].
  apply negb_true_iff in Ha. now rewrite Ha, IH.
Qed.

Lemma free_of_app (c : ascii) (a b : string) :
  free_of c (a ++ b) = (free_of c a && free_of c b)%bool.
Proof.
  induction a as [|x a IH]; simpl; [reflexivity|].
  now rewrite IH, andb_assoc.
Qed.

Lemma free_of_rev (c : ascii) (s : string) :
  free_of c (Str.rev s) = free_of c s.
Proof.
  induction s as [|a s IH]; [reflexivity|].
  change (Str.rev (String a s)) with (Str.rev_acc s (String a "")).
  rewrite rev_acc_app, free_of_app, IH. simpl.
  now rewrite andb_true_r, andb_comm.
Qed.

Lemma plain_name_entry (name : string) : plain_name name -> entry_name name.
Proof.
  intros [Hne Hfree]. split; [exact Hne|].
  destruct name as [|a name]; [now elim Hne|].
  simpl in Hfree. apply andb_true_iff in Hfree. destruct Hfree as [Ha _].
  apply negb_true_iff in Ha. unfold Str.startswith. cbn -[ascii_dec].
  destruct (ascii_dec "/" a) as [<-|]; [discriminate Ha | reflexivity].
Qed.

Lemma rev_nonempty (s : string) : s <> "" -> Str.rev s <> "".
Proof.
  destruct s as [|a s]; [congruence|]. intros _.
  change (Str.rev (String a s)) with (Str.rev_acc s (String a "")).
  rewrite rev_acc_app. now destruct (Str.rev s).
Qed.

(** A path that ends with a plain name does not end with the separator. *)
Lemma endswith_plain (x name : string) :
  plain_name name -> Str.endswith (x ++ name) posixpath.sep = false.
Proof.
  intros [Hne Hfree]. unfold Str.endswith. rewrite rev_app.
  change (Str.rev posixpath.sep) with posixpath.sep.
  rewrite (prefix_sep_app (Str.rev name) (Str.rev x) (rev_nonempty name Hne)).
  rewrite <- (free_of_rev posixpath.sep_char) in Hfree.
  destruct (Str.rev name) as [|a r]; [reflexivity|].
  simpl in Hfree. apply andb_true_iff in Hfree. destruct Hfree as [Ha _].
  apply negb_true_iff in Ha. cbn -[ascii_dec].
  destruct (ascii_dec "/" a) as [<-|]; [discriminate Ha | reflexivity].
Qed.

Lemma fold_join_plain :
  forall (names : list string) (x name : string),
    plain_name name ->
    Forall plain_name names ->
    fold_left posixpath.join names (x ++ name) = (x ++ name) ++ slashed names.
Proof.
  induction names as [|m names IH]; intros x name Hname Hnames.
  - simpl. now rewrite append_nil_r.
  - inversion Hnames as [|? ? Hm Hrest]; subst. cbn [fold_left slashed].
    assert (Hjoin : posixpath.join (x ++ name) m
                    = ((x ++ name) ++ posixpath.sep) ++ m).
    { unfold posixpath.join.
      rewrite (proj2 (plain_name_entry m Hm)), (endswith_plain x name Hname).
      replace (String.eqb (x ++ name) "") with false.
      - cbn [orb]. now rewrite !append_assoc.
      - symmetry. apply String.eqb_neq. destruct Hname as [Hne _].
        destruct x; [exact Hne | discriminate]. }
    rewrite Hjoin, (IH _ m Hm Hrest). now rewrite !append_assoc.
Qed.

Lemma lstrip_plain (name t : string) :
  plain_name name ->
  Str.lstrip posixpath.sep_char (name ++ t) = name ++ t.
Proof.
  intros [Hne Hfree]. destruct name as [|a name]; [now elim Hne|].
  simpl in *. apply andb_true_iff in Hfree. destruct Hfree as [Ha _].
  apply negb_true_iff in Ha. now rewrite Ha.
Qed.

Lemma replace_slashed (names : list string) :
  Forall plain_name names ->
  Str.replace posixpath.sep_char "."%char (slashed names) = dotted names.
Proof.
  induction 1 as [|name names [_ Hfree] _ IH]; [reflexivity|].
  cbn [slashed dotted]. rewrite !replace_app, IH, (replace_free _ _ _ Hfree).
  reflexivity.
Qed.

Lemma join_dotted (name : string) (names : list string) :
  Str.join "." (name :: names) = name ++ dotted names.
Proof.
  revert name. induction names as [|m names IH]; intros name.
  - simpl. now rewrite append_nil_r.
  - change (Str.join "." (name :: m :: names))
      with (name ++ "." ++ Str.join "." (m :: names)).
    now rewrite IH.
Qed.

Lemma drop_all (a : string) : Str.drop (String.length a) a = "".
Proof. induction a as [|c a IH]; [reflexivity | exact IH]. Qed.

(** X15. The dotted name of a package is its path below the root with
    the separators turned into dots: for the directory the walk
    reaches from the root through the entries [names], and for the
    root itself the empty name. *)
Theorem subpackage_of_entered_path :
  forall (rootpath : string) (names : list string),
    Forall plain_name names ->
    subpackage_of rootpath (entered_path rootpath names) = Str.join "." names.
Proof.
  intros rootpath names Hnames. unfold subpackage_of, entered_path.
  destruct Hnames as [|name names Hname Hnames].
  - simpl. now rewrite drop_all.
  - cbn [fold_left].
    assert (Hfirst : exists s,
               (s = "" \/ s = posixpath.sep) /\
               posixpath.join rootpath name = (rootpath ++ s) ++ name).
    { unfold posixpath.join.
      rewrite (proj2 (plain_name_entry name Hname)).
      destruct (_ || _)%bool.
      - exists "". split; [now left | now rewrite append_nil_r].
      - exists posixpath.sep. split; [now right | now rewrite append_assoc]. }
    destruct Hfirst as (s & Hs & ->).
    rewrite (fold_join_plain names (rootpath ++ s) name Hname Hnames).
    rewrite !append_assoc, drop_app.
    assert (Hstrip : Str.lstrip posixpath.sep_char (s ++ name ++ slashed names)
                     = name ++ slashed names).
    { destruct Hs as [-> | ->].
      - exact (lstrip_plain name (slashed names) Hname).
      - change (Str.lstrip posixpath.sep_char
                  (posixpath.sep ++ name ++ slashed names))
          with (Str.lstrip posixpath.sep_char (name ++ slashed names)).
        exact (lstrip_plain name (slashed names) Hname). }
    rewrite Hstrip, replace_app, (replace_slashed names Hnames).
    rewrite (replace_free _ _ _ (proj2 Hname)). symmetry. apply join_dotted.
Qed.

(** ** SymbolClassifier: the buckets as selections *)

Section ClassifierMore.

Variable env : pyenv.
Variable auto_find_examples : pyobj -> string -> string.

Lemma classify_members_buckets (full_name : string) :
  forall (dir_members : list string)
         (c0 f0 v0 c f v : list (string * pyobj)),
    classify_members env full_name dir_members (c0, f0, v0) = Ok (c, f, v) ->
    c = (c0 ++ flat_map (selected env full_name PyClass) dir_members)%list /\
    f = (f0 ++ flat_map (selected env full_name PyFunction) dir_members)%list /\
    v = (v0 ++ flat_map (selected env full_name PyOther) dir_members)%list.
Proof.
  induction dir_members as [|member rest IH]; intros c0 f0 v0 c f v H.
  - injection H as <- <- <-. simpl. now rewrite !app_nil_r.
  - cbn [classify_members] in H. cbn [flat_map]. unfold selected at 1 3 5.
    destruct (py_import env full_name [member]) as [m|e]; [|discriminate].
    destruct (getattr m member) as [obj|]; [|discriminate].
    destruct (option_string_eqb (obj_module obj) (Some full_name)
              && negb (Str.startswith member "_")).
    + destruct (obj_kind obj); apply IH in H; destruct H as (-> & -> & ->);
        cbn [andb pykind_eqb app]; rewrite <- ?app_assoc; repeat split.
    + apply IH in H. destruct H as (-> & -> & ->). repeat split.
Qed.

(** A successful [format_directive], taken apart. *)
Lemma format_directive_ok (module destdir : string) (package : option string)
      (w w1 : world) (directive : string) :
  format_directive env auto_find_examples module destdir package
                   default_basename w = (Ok directive, w1) ->
  exists (mod_ : pymodule) (c f v : list (string * pyobj))
         (stubs : list (string * string)),
    py_import env (default_basename ++ "." ++ module) [] = Ok mod_ /\
    classify_members env (default_basename ++ "." ++ module) (dir mod_)
                     ([], [], []) = Ok (c, f, v) /\
    directive = automodule_block package module ++ member_listing c f v /\
    written w1 = (written w ++ stubs)%list /\
    map fst stubs
    = map (fun m => stub_file destdir (default_basename ++ "." ++ module)
                              (fst m))
          (c ++ f ++ v)%list.
Proof.
  intros H. unfold format_directive in H.
  set (full_name := default_basename ++ "." ++ module) in *.
  unfold bind at 1, lift at 1 in H.
  destruct (py_import env full_name []) as [mod_|e]; [|discriminate].
  unfold bind at 1, lift at 1 in H.
  destruct (classify_members env full_name (dir mod_) ([], [], []))
    as [[[c f] v]|e] eqn:Hcl; [|discriminate].
  match type of H with
  | bind (section _ _ ?t _ _ _ ?d) _ w = _ =>
      destruct (section_effect env auto_find_examples t full_name destdir
                               c d w)
        as (r1 & u1 & s1 & d1 & E1 & _ & W1 & N1 & _ & K1)
  end.
  destruct r1 as [t1|e1];
    [|erewrite bind_raise in H by exact E1; discriminate].
  erewrite bind_ok in H by exact E1. destruct (K1 t1 eq_refl) as [-> ->].
  match type of H with
  | bind (section _ _ ?t _ _ _ ?d) _ u1 = _ =>
      destruct (section_effect env auto_find_examples t full_name destdir
                               f d u1)
        as (r2 & u2 & s2 & d2 & E2 & _ & W2 & N2 & _ & K2)
  end.
  destruct r2 as [t2|e2];
    [|erewrite bind_raise in H by exact E2; discriminate].
  erewrite bind_ok in H by exact E2. destruct (K2 t2 eq_refl) as [-> ->].
  match type of H with
  | bind (section _ _ ?t _ _ _ ?d) _ u2 = _ =>
      destruct (section_effect env auto_find_examples t full_name destdir
                               v d u2)
        as (r3 & u3 & s3 & d3 & E3 & _ & W3 & N3 & _ & K3)
  end.
  destruct r3 as [t3|e3];
    [|erewrite bind_raise in H by exact E3; discriminate].
  erewrite bind_ok in H by exact E3. destruct (K3 t3 eq_refl) as [-> ->].
  unfold ret in H. injection H as <- <-.
  exists mod_, c, f, v, (s1 ++ s2 ++ s3)%list.
  split; [reflexivity|]. split; [exact Hcl|]. split; [|split].
  - unfold member_listing, automodule_block, OPTIONS. cbn [fold_left].
    rewrite !append_assoc. reflexivity.
  - now rewrite W3, W2, W1, <- !app_assoc.
  - rewrite !map_app. now rewrite N1, N2, N3.
Qed.

(** X16. When [format_directive] returns, nothing that belongs to the
    module is left out: the listings are, kind by kind (classes, then
    functions, then the other objects), exactly the names of
    [dir(mod)], in that order, whose object is owned by the module and
    public, and the files written are their stubs, one each, in the
    same order. *)
Theorem format_directive_documents_every_owned_member :
  forall (module destdir : string) (package : option string)
         (w w1 : world) (directive : string),
    format_directive env auto_find_examples module destdir package
                     default_basename w = (Ok directive, w1) ->
    let full_name := default_basename ++ "." ++ module in
    exists (mod_ : pymodule) (stubs : list (string * string)),
      py_import env full_name [] = Ok mod_ /\
      let classes := flat_map (selected env full_name PyClass) (dir mod_) in
      let functions :=
        flat_map (selected env full_name PyFunction) (dir mod_) in
      let variables := flat_map (selected env full_name PyOther) (dir mod_) in
      directive = automodule_block package module
                    ++ member_listing classes functions variables /\
      written w1 = (written w ++ stubs)%list /\
      map fst stubs
      = map (fun m => stub_file destdir full_name (fst m))
            (classes ++ functions ++ variables)%list.
Proof.
  intros module destdir package w w1 directive H full_name.
  destruct (format_directive_ok _ _ _ _ _ _ H)
    as (mod_ & c & f & v & stubs & Him & Hcl & Hd & Hw & Hn).
  destruct (classify_members_buckets _ _ _ _ _ _ _ _ Hcl) as (-> & -> & ->).
  exists mod_, stubs. repeat split; assumption.
Qed.

(** X17. Every member is fetched before the first stub is written:
    when the load of the module, or of one of the names of
    [dir(mod)], fails, [format_directive] raises that exception and has
    written nothing. *)
Theorem format_directive_fails_before_writing :
  forall (module destdir : string) (package : option string) (w : world)
         (e : exn),
    let full_name := default_basename ++ "." ++ module in
    py_import env full_name [] = Raise e
    \/ (exists mod_, py_import env full_name [] = Ok mod_ /\
                     classify_members env full_name (dir mod_) ([], [], [])
                     = Raise e) ->
    format_directive env auto_find_examples module destdir package
                     default_basename w = (Raise e, w).
Proof.
  intros module destdir package w e full_name H.
  unfold format_directive, bind, lift. fold full_name.
  destruct H as [-> | (mod_ & -> & ->)]; reflexivity.
Qed.


End ClassifierMore.

(** ** A run only adds files, and the same ones from any start *)

Lemma add_files_nil (w : world) : add_files w [] = w.
Proof. destruct w. unfold add_files. simpl. now rewrite !app_nil_r. Qed.

Lemma add_files_app (w : world) (f1 f2 : list (string * string)) :
  add_files (add_files w f1) f2 = add_files w (f1 ++ f2)%list.
Proof.
  unfold add_files. simpl. now rewrite map_app, !app_assoc.
Qed.

Lemma writes_ret {A : Type} (a : A) : writes (ret a) (Ok a) [].
Proof. intros w. unfold ret. now rewrite add_files_nil. Qed.

Lemma writes_throw {A : Type} (e : exn) : writes (@throw A e) (Raise e) [].
Proof. intros w. unfold throw. now rewrite add_files_nil. Qed.

Lemma writes_lift {A : Type} (r : result A) : writes (lift r) r [].
Proof. intros w. unfold lift. now rewrite add_files_nil. Qed.

Lemma writes_bind_ok {A B : Type} (m : M A) (k : A -> M B) (a : A)
      (r : result B) (f1 f2 : list (string * string)) :
  writes m (Ok a) f1 -> writes (k a) r f2 ->
  writes (bind m k) r (f1 ++ f2)%list.
Proof.
  intros H1 H2 w. unfold bind. now rewrite H1, H2, add_files_app.
Qed.

Lemma writes_bind_raise {A B : Type} (m : M A) (k : A -> M B) (e : exn)
      (f1 : list (string * string)) :
  writes m (Raise e) f1 -> writes (bind m k) (Raise e) f1.
Proof. intros H1 w. unfold bind. now rewrite H1. Qed.

Lemma writes_write_file (name text destdir suffix : string) :
  writes (write_file name text destdir suffix) (Ok tt)
         [(posixpath.join destdir (name ++ "." ++ suffix), text)].
Proof. intros w. reflexivity. Qed.

Lemma tidy_ret {A : Type} (destdir : string) (a : A) : tidy destdir (ret a).
Proof. exists (Ok a), []. split; [apply writes_ret | constructor]. Qed.

Lemma tidy_throw {A : Type} (destdir : string) (e : exn) :
  tidy destdir (@throw A e).
Proof. exists (Raise e), []. split; [apply writes_throw | constructor]. Qed.

Lemma tidy_lift {A : Type} (destdir : string) (r : result A) :
  tidy destdir (lift r).
Proof. exists r, []. split; [apply writes_lift | constructor]. Qed.

Lemma tidy_bind {A B : Type} (destdir : string) (m : M A) (k : A -> M B) :
  tidy destdir m -> (forall a, tidy destdir (k a)) -> tidy destdir (bind m k).
Proof.
  intros (r1 & f1 & H1 & P1) Hk. destruct r1 as [a|e].
  - destruct (Hk a) as (r2 & f2 & H2 & P2).
    exists r2, (f1 ++ f2)%list. split.
    + exact (writes_bind_ok m k a r2 f1 f2 H1 H2).
    + apply Forall_app. now split.
  - exists (Raise e), f1. split; [now apply writes_bind_raise | exact P1].
Qed.

Lemma tidy_write_file (name text destdir : string) :
  tidy destdir (write_file name text destdir "rst").
Proof.
  eexists _, _. split; [apply writes_write_file|].
  constructor; [now exists name | constructor].
Qed.

Lemma node_induction (P : node -> Prop) :
  (forall size, P (File size)) ->
  (forall entries, Forall (fun e => P (snd e)) entries -> P (Dir entries)) ->
  forall n, P n.
Proof.
  intros HF HD.
  refine (fix F (n : node) : P n :=
            match n with
            | File size => HF size
            | Dir entries =>
                HD entries
                   ((fix G (es : list (string * node))
                     : Forall (fun e => P (snd e)) es :=
                       match es with
                       | [] => Forall_nil _
                       | (name, child) :: es' =>
                           Forall_cons (name, child) (F child) (G es')
                       end) entries)
            end).
Qed.

(** [os.walk] at a directory: the loop body, then its two loops. *)
Lemma os_walk_dir {A : Type}
      (body : string -> list string -> list string -> A
              -> M (list string * A))
      (top : string) (entries : list (string * node)) (acc : A) :
  os_walk body top (Dir entries) acc
  = (r <- body top (os.dir_names entries) (os.file_names entries) acc ;;
     descend_entries (os_walk body) top entries (fst r) (snd r)).
Proof. reflexivity. Qed.

Section WriterFacts.

Variable env : pyenv.
Variable fs : filesystem.
Variable auto_find_examples : pyobj -> string -> string.
Variable destdir : string.

Lemma create_member_file_tidy (module_name member : string) (obj : pyobj) :
  tidy destdir (create_member_file env auto_find_examples module_name member
                                   obj destdir "rst").
Proof.
  unfold create_member_file. apply tidy_bind; [apply tidy_lift|].
  intros shortest. apply tidy_write_file.
Qed.

Lemma summarize_tidy (full_name : string) :
  forall (members : list (string * pyobj)) (directive : string),
    tidy destdir (summarize env auto_find_examples full_name destdir members
                            directive).
Proof.
  induction members as [|[member obj] rest IH]; intros directive.
  - apply tidy_ret.
  - cbn [summarize]. apply tidy_bind; [apply create_member_file_tidy|].
    intros _. apply IH.
Qed.

Lemma section_tidy (title full_name : string)
      (members : list (string * pyobj)) (directive : string) :
  tidy destdir (section env auto_find_examples title full_name destdir
                        members directive).
Proof.
  destruct members; [apply tidy_ret|]. unfold section. apply summarize_tidy.
Qed.

Lemma format_directive_tidy (module : string) (package : option string)
      (basename : string) :
  tidy destdir (format_directive env auto_find_examples module destdir
                                 package basename).
Proof.
  unfold format_directive.
  apply tidy_bind; [apply tidy_lift|]. intros mod_.
  apply tidy_bind; [apply tidy_lift|]. intros [[c f] v].
  apply tidy_bind; [apply section_tidy|]. intros d1.
  apply tidy_bind; [apply section_tidy|]. intros d2.
  apply tidy_bind; [apply section_tidy|]. intros d3.
  apply tidy_ret.
Qed.

Lemma package_modules_tidy (root : string) (master_package : option string)
      (subroot : string) :
  forall (py_files : list string) (text : string),
    tidy destdir (package_modules env fs auto_find_examples root
                                  master_package subroot py_files destdir
                                  text).
Proof.
  induction py_files as [|py_file rest IH]; intros text.
  - apply tidy_ret.
  - cbn [package_modules]. apply tidy_bind; [apply tidy_lift|]. intros [|].
    + apply IH.
    + apply tidy_bind; [apply format_directive_tidy|]. intros d. apply IH.
Qed.

Lemma create_package_file_tidy (root : string)
      (master_package : option string) (subroot : string)
      (py_files subs excludes : list string) :
  tidy destdir (create_package_file env fs auto_find_examples root
                                    master_package subroot py_files subs
                                    destdir excludes "rst").
Proof.
  unfold create_package_file.
  apply tidy_bind; [apply package_modules_tidy|]. intros text.
  apply tidy_write_file.
Qed.

Lemma visit_tidy (rootpath : string) (root_package : option string)
      (exclude_dirs exclude_files : list string)
      (root : string) (subs files toplevels : list string) :
  tidy destdir (visit env fs auto_find_examples rootpath root_package
                      exclude_dirs exclude_files destdir root subs files
                      toplevels).
Proof.
  unfold visit.
  destruct (is_excluded root exclude_dirs); [apply tidy_ret|].
  assert (Hdoc : forall py_files,
    tidy destdir
      (subs0 <- lift (visible_sorted subs) ;;
       (if Str.mem INITPY (module_files files exclude_files)
        then
          something <-
            (if match subs0 with [] => false | _ :: _ => true end
                || Nat.ltb 1 (List.length py_files)
             then ret true
             else skip <- lift (shall_skip fs (posixpath.join root INITPY)) ;;
                  ret (negb skip)) ;;
          (if (something : bool)
           then
             _ <- create_package_file env fs auto_find_examples root
                    root_package (subpackage_of rootpath root) py_files
                    subs0 destdir exclude_dirs "rst" ;;
             ret (subs0,
                  (toplevels
                     ++ [makename root_package
                                  (subpackage_of rootpath root)])%list)
           else ret (subs0, toplevels))
        else throw (AssertionError "Expected it to be a package")))).
  { intros py_files.
    apply tidy_bind; [apply tidy_lift|]. intros subs0.
    destruct (Str.mem INITPY _); [|apply tidy_throw].
    apply tidy_bind.
    - destruct (_ || _)%bool; [apply tidy_ret|].
      apply tidy_bind; [apply tidy_lift|]. intros skip. apply tidy_ret.
    - intros [|]; [|apply tidy_ret].
      apply tidy_bind; [apply create_package_file_tidy|].
      intros _. apply tidy_ret. }
  destruct (Str.mem INITPY (module_files files exclude_files)) eqn:Hpkg.
  - apply (Hdoc (INITPY :: Str.remove_first INITPY
                             (module_files files exclude_files))).
  - destruct (negb (String.eqb root rootpath)); [apply tidy_ret|].
    apply (Hdoc (module_files files exclude_files)).
Qed.

Lemma find_entry_tidy {A : Type} (walk : string -> node -> A -> M A)
      (top dirname : string) (acc : A) (es : list (string * node)) :
  Forall (fun e => forall top acc, tidy destdir (walk top (snd e) acc)) es ->
  tidy destdir (find_entry walk top dirname acc es).
Proof.
  induction 1 as [|[name child] es Hchild _ IH]; cbn [find_entry].
  - apply tidy_ret.
  - destruct (String.eqb name dirname); [apply Hchild | exact IH].
Qed.

Lemma descend_entries_tidy {A : Type} (walk : string -> node -> A -> M A)
      (top : string) (es : list (string * node)) :
  Forall (fun e => forall top acc, tidy destdir (walk top (snd e) acc)) es ->
  forall (subs : list string) (acc : A),
    tidy destdir (descend_entries walk top es subs acc).
Proof.
  intros Hes. induction subs as [|dirname rest IH]; intros acc;
    cbn [descend_entries].
  - apply tidy_ret.
  - apply tidy_bind; [now apply find_entry_tidy | exact IH].
Qed.

Lemma os_walk_tidy {A : Type}
      (body : string -> list string -> list string -> A
              -> M (list string * A)) :
  (forall root subs files acc, tidy destdir (body root subs files acc)) ->
  forall (n : node) (top : string) (acc : A),
    tidy destdir (os_walk body top n acc).
Proof.
  intros Hbody. induction n as [size|entries IH] using node_induction;
    intros top acc.
  - apply tidy_ret.
  - rewrite os_walk_dir. apply tidy_bind; [apply Hbody|].
    intros r. now apply descend_entries_tidy.
Qed.

Lemma recurse_tree_tidy (rootpath : string)
      (exclude_dirs exclude_files : list string) :
  tidy destdir (recurse_tree env fs auto_find_examples rootpath exclude_dirs
                             exclude_files destdir).
Proof.
  unfold recurse_tree. apply tidy_bind; [apply tidy_lift|]. intros listing.
  destruct (os.lookup fs _); [|apply tidy_ret].
  apply os_walk_tidy. intros root subs files acc. apply visit_tidy.
Qed.

End WriterFacts.


Lemma prepared_again (fs : filesystem) (destdir : string) (w : world)
      (files : list (string * string)) :
  prepared fs destdir (add_files (prepared fs destdir w) files)
  = add_files (prepared fs destdir w) files.
Proof.
  unfold prepared at 1.
  replace (os.path_exists fs destdir
           || Str.mem destdir
                (made_dirs (add_files (prepared fs destdir w) files)))%bool
    with true; [reflexivity|].
  symmetry. unfold prepared.
  destruct (os.path_exists fs destdir) eqn:E1; [reflexivity|].
  destruct (Str.mem destdir (made_dirs w)) eqn:E2; cbn [orb add_files made_dirs].
  - exact E2.
  - apply mem_In. apply in_app_iff. right. now left.
Qed.


(** ** What the walk keeps true *)

Section WalkInvariant.

Context {A : Type}.
Variable I : A -> world -> Prop.

Local Abbreviation keeps m :=
  (forall acc w acc' w', m acc w = (Ok acc', w') -> I acc w -> I acc' w').

Lemma find_entry_keeps (walk : string -> node -> A -> M A)
      (top dirname : string) (es : list (string * node)) :
  Forall (fun e => forall top, keeps (walk top (snd e))) es ->
  keeps (fun acc => find_entry walk top dirname acc es).
Proof.
  induction 1 as [|[name child] es Hchild _ IH]; intros acc w acc' w' H HI;
    cbn [find_entry] in H.
  - injection H as <- <-. exact HI.
  - destruct (String.eqb name dirname).
    + exact (Hchild _ _ _ _ _ H HI).
    + exact (IH _ _ _ _ H HI).
Qed.

Lemma descend_entries_keeps (walk : string -> node -> A -> M A)
      (top : string) (es : list (string * node)) :
  Forall (fun e => forall top, keeps (walk top (snd e))) es ->
  forall subs, keeps (descend_entries walk top es subs).
Proof.
  intros Hes. induction subs as [|dirname rest IH];
    intros acc w acc' w' H HI; cbn [descend_entries] in H.
  - injection H as <- <-. exact HI.
  - unfold bind in H.
    destruct (find_entry walk top dirname acc es w) as [[acc1|e] w1] eqn:E;
      [|discriminate].
    apply (IH _ _ _ _ H).
    exact (find_entry_keeps walk top dirname es Hes _ _ _ _ E HI).
Qed.

Lemma os_walk_keeps
      (body : string -> list string -> list string -> A
              -> M (list string * A)) :
  (forall root subs files acc w subs' acc' w',
      body root subs files acc w = (Ok (subs', acc'), w') ->
      I acc w -> I acc' w') ->
  forall n top, keeps (os_walk body top n).
Proof.
  intros Hbody. induction n as [size|entries IH] using node_induction;
    intros top acc w acc' w' H HI.
  - injection H as <- <-. exact HI.
  - rewrite os_walk_dir in H. unfold bind in H.
    destruct (body top _ _ acc w) as [[[subs' acc1]|e] w1] eqn:E;
      [|discriminate].
    cbn [fst snd] in H.
    apply (descend_entries_keeps (os_walk body) top entries IH _ _ _ _ _ H).
    exact (Hbody _ _ _ _ _ _ _ _ E HI).
Qed.

End WalkInvariant.

(** X21. Every package [recurse_tree] returns has its page: for each
    dotted name of the list there is a file [destdir/name.rst] among
    those written. *)
Theorem returned_packages_have_pages :
  forall (env : pyenv) (fs : filesystem)
         (auto_find_examples : pyobj -> string -> string)
         (rootpath : string) (exclude_dirs exclude_files : list string)
         (destdir : string) (w w1 : world) (toplevels : list string),
    recurse_tree env fs auto_find_examples rootpath exclude_dirs
                 exclude_files destdir w = (Ok toplevels, w1) ->
    forall name, In name toplevels ->
      exists text,
        In (posixpath.join destdir (name ++ ".rst"), text) (written w1).
Proof.
  intros env fs afe rootpath exclude_dirs exclude_files destdir w w1
         toplevels H.
  unfold recurse_tree, bind, lift in H.
  destruct (os.listdir fs _) as [listing|e]; [|discriminate].
  destruct (os.lookup fs _) as [n|];
    [|injection H as <- <-; intros name []].
  refine (os_walk_keeps
            (fun acc u => forall name, In name acc ->
               exists text,
                 In (posixpath.join destdir (name ++ ".rst"), text)
                    (written u))
            _ _ _ _ _ _ _ _ H _).
  - intros root subs files acc u subs' acc' u' Hv HI.
    apply visit_ok_cases in Hv.
    destruct Hv as [(_ & -> & ->)|[(_ & -> & ->)|(_ & -> & Hp)]];
      try exact HI.
    apply create_package_file_page in Hp.
    destruct Hp as (text & tail & v & Hloop & _ & Hwr).
    match type of Hloop with
    | package_modules _ _ _ ?r ?mp ?sr ?pf _ ?t _ = _ =>
        destruct (package_modules_tidy env fs afe destdir r mp sr pf t)
          as (r0 & added & Hfiles & _)
    end.
    rewrite Hfiles in Hloop. injection Hloop as _ <-.
    intros name Hin. apply in_app_iff in Hin. rewrite Hwr.
    destruct Hin as [Hin|[<-|[]]].
    + destruct (HI name Hin) as (t & Ht). exists t.
      cbn [add_files written]. rewrite !in_app_iff. now left; left.
    + exists (text ++ tail). apply in_app_iff. right. now left.
  - intros name [].
Qed.

Lemma concat_empty_cons (x : string) (l : list string) :
  String.concat "" (x :: l) = x ++ String.concat "" l.
Proof. destruct l; [symmetry; apply append_nil_r | reflexivity]. Qed.

Lemma toctree_entries_lines (root : string) (master_package : option string)
      (subroot : string) (excludes : list string) :
  forall (subs : list string) (text : string),
    toctree_entries root master_package subroot subs excludes text
    = text
        ++ String.concat ""
             (map (toctree_line master_package subroot)
                  (filter (fun sub =>
                             negb (is_excluded (posixpath.join root sub)
                                               excludes))
                          subs)).
Proof.
  induction subs as [|sub rest IH]; intros text; cbn [toctree_entries filter].
  - cbn [map String.concat]. now rewrite append_nil_r.
  - rewrite IH. destruct (negb _); [|reflexivity].
    cbn [map]. rewrite concat_empty_cons. unfold toctree_line at 2.
    now rewrite !append_assoc.
Qed.

(** X22. A package page is the text of the module loop followed by the
    table of subpackages, and it is written only once the loop has
    returned: the table is absent when no subdirectory holds a marker
    file; otherwise it has its heading and one line for each
    subdirectory that holds a marker file and is not excluded. *)
Theorem create_package_file_layout :
  forall (env : pyenv) (fs : filesystem)
         (auto_find_examples : pyobj -> string -> string)
         (root : string) (master_package : option string) (subroot : string)
         (py_files subs : list string) (destdir : string)
         (excludes : list string) (suffix : string) (w : world),
    create_package_file env fs auto_find_examples root master_package subroot
                        py_files subs destdir excludes suffix w
    = match package_modules env fs auto_find_examples root master_package
                            subroot py_files destdir
                            (format_heading H1
                               (posixpath.split_tail root ++ " package"))
                            w with
      | (Ok text, u) =>
          (Ok tt,
           add_files u
             [(page_file destdir master_package subroot suffix,
               text ++ subpackages_block fs root master_package subroot subs
                                         excludes)])
      | (Raise e, u) => (Raise e, u)
      end.
Proof.
  intros. unfold create_package_file, bind.
  destruct (package_modules _ _ _ _ _ _ _ _ _ w) as [[text|e] u];
    [|reflexivity].
  unfold subpackages_block.
  destruct (filter _ subs) as [|sub subs'].
  - now rewrite append_nil_r.
  - rewrite toctree_entries_lines. rewrite !append_assoc. reflexivity.
Qed.

(** ** Pruning and the names returned *)

(** X23. An excluded directory is where the walk stops: whatever its
    subtree holds, walking it returns the list of packages as it was
    and leaves the world as it was. *)
Theorem excluded_subtree_contributes_nothing :
  forall (env : pyenv) (fs : filesystem)
         (auto_find_examples : pyobj -> string -> string)
         (rootpath : string) (root_package : option string)
         (exclude_dirs exclude_files : list string) (destdir root : string)
         (n : node) (toplevels : list string) (w : world),
    is_excluded root exclude_dirs = true ->
    os_walk (visit env fs auto_find_examples rootpath root_package
                   exclude_dirs exclude_files destdir)
            root n toplevels w
    = (Ok toplevels, w).
Proof.
  intros env fs afe rootpath root_package exclude_dirs exclude_files destdir
         root n toplevels w H.
  destruct n as [size|entries]; [reflexivity|].
  apply os_walk_pruned. now apply visit_excluded.
Qed.

Lemma file_names_listed (name : string) (entries : list (string * node)) :
  Str.mem name (map fst entries) = false ->
  Str.mem name (os.file_names entries) = false.
Proof.
  intros H. unfold os.file_names.
  destruct (Str.mem name (map fst (filter _ entries))) eqn:E; [|reflexivity].
  apply mem_In in E. apply in_map_iff in E.
  destruct E as (e & <- & He). apply filter_In in He.
  assert (Hin : In (fst e) (map fst entries)) by (apply in_map; tauto).
  apply mem_In in Hin. congruence.
Qed.

(** X24. The names [recurse_tree] returns lie under the root package:
    a run that returns a name started at a directory that lists the
    marker file, and the name is the last component of the resolved
    root joined, by [makename], with a dotted name below it. *)
Theorem returned_packages_lie_under_the_root_package :
  forall (env : pyenv) (fs : filesystem)
         (auto_find_examples : pyobj -> string -> string)
         (rootpath : string) (exclude_dirs exclude_files : list string)
         (destdir : string) (w w1 : world) (toplevels : list string),
    recurse_tree env fs auto_find_examples rootpath exclude_dirs
                 exclude_files destdir w = (Ok toplevels, w1) ->
    forall name, In name toplevels ->
      (exists listing,
          os.listdir fs (resolved_root fs rootpath) = Ok listing /\
          In INITPY listing)
      /\
      exists sub,
        name = makename (Some (List.last (Str.split posixpath.sep_char
                                            (resolved_root fs rootpath)) ""))
                        sub.
Proof.
  intros env fs afe rootpath exclude_dirs exclude_files destdir w w1
         toplevels H.
  unfold recurse_tree, bind, lift in H. fold (resolved_root fs rootpath) in H.
  unfold os.listdir in *.
  destruct (os.lookup fs (resolved_root fs rootpath)) as [[size|entries]|];
    try discriminate.
  destruct (Str.mem INITPY (map fst entries)) eqn:Hmarker.
  - intros name Hin. split.
    { exists (map fst entries). split; [reflexivity | now apply mem_In]. }
    revert name Hin.
    refine (os_walk_keeps
              (fun acc _ => forall name, In name acc ->
                 exists sub, name = makename (Some _) sub)
              _ _ _ _ _ _ _ _ H _).
    + intros root subs files acc u subs' acc' u' Hv HI.
      apply visit_ok_cases in Hv.
      destruct Hv as [(_ & -> & _)|[(_ & -> & _)|(_ & -> & _)]];
        try exact HI.
      intros name Hin. apply in_app_iff in Hin.
      destruct Hin as [Hin|[<-|[]]]; [now apply HI | eexists; reflexivity].
    + intros name [].
  - rewrite os_walk_dir in H. unfold bind in H.
    match type of H with
    | match ?b with _ => _ end = _ => destruct b as [[[subs' acc]|e] u] eqn:Hv
    end; [|discriminate].
    unfold visit in Hv.
    destruct (is_excluded _ exclude_dirs).
    + injection Hv as <- <- <-. injection H as <- <-. intros name [].
    + rewrite (module_files_marker _ exclude_files
                 (file_names_listed _ _ Hmarker)) in Hv.
      rewrite String.eqb_refl in Hv. cbn [negb] in Hv.
      unfold bind, lift, throw in Hv.
      destruct (visible_sorted _); discriminate.
Qed.

(** ** The further properties at work on the example installation *)

Lemma find_shortest_import_sound_and_minimal_witness :
  exists idx,
    1 <= idx <= List.length (Str.split "."%char "brian2.units.fundamentalunits")
    /\ "brian2.units" = dotted_prefix "brian2.units.fundamentalunits" idx
    /\ retrievable_from Example.env "brian2.units.fundamentalunits"
                        "check_units" "brian2.units"
    /\ forall j, 1 <= j < idx ->
                 ~ retrievable_from Example.env "brian2.units.fundamentalunits"
                     "check_units"
                     (dotted_prefix "brian2.units.fundamentalunits" j).
Proof.
  apply (find_shortest_import_sound_and_minimal
           Example.env "brian2.units.fundamentalunits" "check_units"
           "brian2.units").
  reflexivity.
Defined.

Lemma find_shortest_import_assertion_message_witness :
  find_shortest_import Example.env "brian2.core" "helper"
  = Raise (AssertionError "Couldn't import brian2.core.helper").
Proof.
  apply (find_shortest_import_assertion_message
           Example.env "brian2.core" "helper").
  intros idx Hidx. change (1 <= idx <= 2) in Hidx.
  assert (E : idx = 1 \/ idx = 2) by lia.
  destruct E as [-> | ->]; vm_compute; [exact I | discriminate].
Defined.

Lemma find_shortest_import_load_failure_propagates_witness :
  find_shortest_import env_with_broken_module "brian2.broken" "fix"
  = Raise (OtherException "ValueError").
Proof.
  apply (find_shortest_import_load_failure_propagates
           env_with_broken_module "brian2.broken" "fix" 2).
  - vm_compute. lia.
  - intros j Hj. assert (E : j = 1) by lia. rewrite E. vm_compute. exact I.
  - reflexivity.
  - reflexivity.
Defined.

Lemma find_shortest_import_own_module_witness :
  find_shortest_import Example.env "brian2.core" "Network" = Ok "brian2.core".
Proof.
  apply (find_shortest_import_own_module Example.env "brian2.core" "Network").
  - eexists; eexists; split; [reflexivity | split; reflexivity].
  - intros j Hj. change (1 <= j < 2) in Hj.
    assert (E : j = 1) by lia. rewrite E. vm_compute. exact I.
Defined.

Lemma format_heading_underline_witness :
  (exists underline,
      format_heading H2 "Subpackages"
      = "Subpackages" ++ Str.nl ++ underline ++ Str.nl ++ Str.nl /\
      String.length underline = 11 /\
      String.get 10 underline = Some "-"%char)
  /\ H2 = H2.
Proof.
  destruct (format_heading_underline H2 "Subpackages")
    as [(underline & Htext & Hlen & Hchar) Hlevel].
  split.
  - exists underline. split; [exact Htext|]. split; [exact Hlen|].
    apply Hchar. simpl. lia.
  - apply Hlevel. reflexivity.
Defined.

Lemma is_excluded_below_witness :
  is_excluded (entered_path "/src/brian2/units" ["tests"; "data"])
              (normalize_excludes "/src/brian2" ["units"])
  = true.
Proof.
  apply (is_excluded_below "/src/brian2/units"
           (normalize_excludes "/src/brian2" ["units"]) ["tests"; "data"]).
  - discriminate.
  - repeat constructor; discriminate.
  - reflexivity.
Defined.

Lemma is_excluded_trailing_separator_witness :
  is_excluded ("/src/brian2/units" ++ posixpath.sep)
              (normalize_excludes "/src/brian2" ["units"])
  = is_excluded "/src/brian2/units" (normalize_excludes "/src/brian2" ["units"]).
Proof.
  apply (is_excluded_trailing_separator "/src/brian2/units"
           (normalize_excludes "/src/brian2" ["units"])).
  reflexivity.
Defined.

Lemma normalized_rule_covers_its_directory_witness :
  is_excluded (entered_path (excluded_directory "/src/brian2" "units")
                            ["tests"; "data"])
              (normalize_excludes "/src/brian2" ["units"])
  = true.
Proof.
  apply (proj2 (normalized_rule_covers_its_directory "/src/brian2" "units")
               ["tests"; "data"]).
  - reflexivity.
  - repeat constructor; discriminate.
Defined.

Lemma package_files_marker_first_witness :
  Permutation (module_files ["util.py"; "__init__.py"; "README.txt"; "core.py"]
                            [])
              (INITPY
                 :: Str.remove_first INITPY
                      (module_files
                         ["util.py"; "__init__.py"; "README.txt"; "core.py"]
                         []))
  /\ StronglySorted str_le
       (Str.remove_first INITPY
          (module_files ["util.py"; "__init__.py"; "README.txt"; "core.py"]
                        [])).
Proof.
  apply (package_files_marker_first
           ["util.py"; "__init__.py"; "README.txt"; "core.py"] []).
  reflexivity.
Defined.

Lemma visible_sorted_selection_witness :
  (Permutation (filter (fun sub => negb (hidden_or_private sub))
                       ["units"; "_cython"; ".git"; "data"])
               ["data"; "units"]
   /\ StronglySorted str_le ["data"; "units"]
   /\ ~ In "" ["units"; "_cython"; ".git"; "data"])
  /\
  (In "" ["units"; ""] /\
   IndexError "string index out of range"
   = IndexError "string index out of range").
Proof.
  split.
  - apply (proj1 (visible_sorted_selection
                    ["units"; "_cython"; ".git"; "data"])).
    reflexivity.
  - apply (proj2 (visible_sorted_selection ["units"; ""])).
    reflexivity.
Defined.

Lemma visit_hands_on_witness :
  (forall sub, In sub ["data"; "units"] ->
               In sub ["units"; "_cython"; "data"]
               /\ hidden_or_private sub = false)
  /\ (["brian2"] = []
      \/ ["brian2"]
         = ([] ++ [makename (Some "brian2")
                            (subpackage_of "/src/brian2" "/src/brian2")])%list).
Proof.
  apply (visit_hands_on
           Example.env Example.fs Example.no_examples "/src/brian2"
           (Some "brian2") [] [] "/out" "/src/brian2"
           ["units"; "_cython"; "data"]
           ["__init__.py"; "core.py"; "util.py"; "empty.py"; "README.txt"]
           [] Example.nothing ["data"; "units"] ["brian2"]
           (snd (visit Example.env Example.fs Example.no_examples
                       "/src/brian2" (Some "brian2") [] [] "/out"
                       "/src/brian2" ["units"; "_cython"; "data"]
                       ["__init__.py"; "core.py"; "util.py"; "empty.py";
                        "README.txt"]
                       [] Example.nothing))).
  vm_compute. reflexivity.
Defined.

Lemma subpackage_of_entered_path_witness :
  subpackage_of "/src/brian2" (entered_path "/src/brian2" ["units"; "tests"])
  = Str.join "." ["units"; "tests"].
Proof.
  apply (subpackage_of_entered_path "/src/brian2" ["units"; "tests"]).
  repeat constructor; discriminate.
Defined.

Lemma format_directive_documents_every_owned_member_witness :
  exists (directive : string) (w1 : world),
    format_directive Example.env Example.no_examples "core" "/out"
                     (Some "brian2") default_basename Example.nothing
    = (Ok directive, w1)
    /\
    exists (mod_ : pymodule) (stubs : list (string * string)),
      py_import Example.env "brian2.core" [] = Ok mod_ /\
      directive
      = automodule_block (Some "brian2") "core"
          ++ member_listing
               (flat_map (selected Example.env "brian2.core" PyClass)
                         (dir mod_))
               (flat_map (selected Example.env "brian2.core" PyFunction)
                         (dir mod_))
               (flat_map (selected Example.env "brian2.core" PyOther)
                         (dir mod_)) /\
      written w1 = (written Example.nothing ++ stubs)%list /\
      map fst stubs
      = map (fun m => stub_file "/out" "brian2.core" (fst m))
            (flat_map (selected Example.env "brian2.core" PyClass) (dir mod_)
               ++ flat_map (selected Example.env "brian2.core" PyFunction)
                           (dir mod_)
               ++ flat_map (selected Example.env "brian2.core" PyOther)
                           (dir mod_))%list.
Proof.
  eexists. eexists. split; [vm_compute; reflexivity|].
  apply (format_directive_documents_every_owned_member
           Example.env Example.no_examples "core" "/out" (Some "brian2")
           Example.nothing).
  vm_compute. reflexivity.
Defined.

Lemma format_directive_fails_before_writing_witness :
  format_directive Example.env Example.no_examples "missing" "/out"
                   (Some "brian2") default_basename Example.nothing
  = (Raise (ImportError "No module named brian2.missing"), Example.nothing).
Proof.
  apply (format_directive_fails_before_writing
           Example.env Example.no_examples "missing" "/out" (Some "brian2")
           Example.nothing).
  left. reflexivity.
Defined.



Lemma returned_packages_have_pages_witness :
  exists text,
    In (posixpath.join "/out" ("brian2.units" ++ ".rst"), text)
       (written (snd (recurse_tree Example.env Example.fs Example.no_examples
                                   "brian2" [] [] "/out" Example.nothing))).
Proof.
  apply (returned_packages_have_pages
           Example.env Example.fs Example.no_examples "brian2" [] [] "/out"
           Example.nothing
           (snd (recurse_tree Example.env Example.fs Example.no_examples
                              "brian2" [] [] "/out" Example.nothing))
           ["brian2"; "brian2.units"]).
  - vm_compute. reflexivity.
  - right. left. reflexivity.
Defined.

Lemma excluded_subtree_contributes_nothing_witness :
  os_walk (visit Example.env Example.fs Example.no_examples "/src/brian2"
                 (Some "brian2") (normalize_excludes "/src/brian2" ["units"])
                 [] "/out")
          "/src/brian2/units"
          (Dir [ ("__init__.py", File 0); ("fundamentalunits.py", File 900) ])
          ["brian2"] Example.nothing
  = (Ok ["brian2"], Example.nothing).
Proof.
  apply (excluded_subtree_contributes_nothing
           Example.env Example.fs Example.no_examples "/src/brian2"
           (Some "brian2") (normalize_excludes "/src/brian2" ["units"]) []
           "/out" "/src/brian2/units").
  reflexivity.
Defined.

Lemma returned_packages_lie_under_the_root_package_witness :
  (exists listing,
      os.listdir Example.fs (resolved_root Example.fs "brian2") = Ok listing /\
      In INITPY listing)
  /\
  exists sub,
    "brian2.units"
    = makename (Some (List.last (Str.split posixpath.sep_char
                                    (resolved_root Example.fs "brian2")) ""))
               sub.
Proof.
  apply (returned_packages_lie_under_the_root_package
           Example.env Example.fs Example.no_examples "brian2" [] [] "/out"
           Example.nothing
           (snd (recurse_tree Example.env Example.fs Example.no_examples
                              "brian2" [] [] "/out" Example.nothing))
           ["brian2"; "brian2.units"]).
  - vm_compute. reflexivity.
  - right. left. reflexivity.
Defined.
